(** * AndroidKeyMintDevice: characteristics classification and the device calls

    A shallow embedding of [ng/AndroidKeyMintDevice.cpp]: the free function
    [convertKeyCharacteristics] that splits the authorizations of a key into
    the KeyMint-enforced and the keystore-enforced characteristics, and the
    methods of [AndroidKeyMintDevice] that forward a call to the engine
    ([impl_], an [AndroidKeymaster]) and convert its response.

    Calls into the engine and [CHECK] failures are the two effects of the file;
    both are constructors of the small monad [KM] below, so that a method is a
    tree whose [Invoke] nodes are the engine calls it makes. *)

From Stdlib Require Import List ZArith Bool String Lia PeanoNat.
From Stdlib Require Import Strings.Byte.
Import ListNotations.

Set Implicit Arguments.

(* ================================================================== *)
(** ** Tags, parameters and authorization sets *)
(* ================================================================== *)

(** The tags the switch of [convertKeyCharacteristics] names, in the order of
    its case labels.  [keymaster_tag_t] is a C enum, so a value the switch has
    no label for can reach it as well: [KM_TAG_unlisted]. *)
Inductive keymaster_tag_t : Type :=
  (* Invalid and unused *)
  | KM_TAG_ECIES_SINGLE_HASH_MODE
  | KM_TAG_INVALID
  | KM_TAG_KDF
  | KM_TAG_ROLLBACK_RESISTANCE
  (* Unimplemented *)
  | KM_TAG_ALLOW_WHILE_ON_BODY
  | KM_TAG_BOOTLOADER_ONLY
  | KM_TAG_ROLLBACK_RESISTANT
  | KM_TAG_STORAGE_KEY
  (* Keystore-enforced if not locally generated *)
  | KM_TAG_CREATION_DATETIME
  (* Disallowed in KeyCharacteristics *)
  | KM_TAG_APPLICATION_DATA
  | KM_TAG_ATTESTATION_APPLICATION_ID
  (* Not key characteristics *)
  | KM_TAG_ASSOCIATED_DATA
  | KM_TAG_ATTESTATION_CHALLENGE
  | KM_TAG_ATTESTATION_ID_BRAND
  | KM_TAG_ATTESTATION_ID_DEVICE
  | KM_TAG_ATTESTATION_ID_IMEI
  | KM_TAG_ATTESTATION_ID_SECOND_IMEI
  | KM_TAG_ATTESTATION_ID_MANUFACTURER
  | KM_TAG_ATTESTATION_ID_MEID
  | KM_TAG_ATTESTATION_ID_MODEL
  | KM_TAG_ATTESTATION_ID_PRODUCT
  | KM_TAG_ATTESTATION_ID_SERIAL
  | KM_TAG_AUTH_TOKEN
  | KM_TAG_CERTIFICATE_SERIAL
  | KM_TAG_CERTIFICATE_SUBJECT
  | KM_TAG_CERTIFICATE_NOT_AFTER
  | KM_TAG_CERTIFICATE_NOT_BEFORE
  | KM_TAG_CONFIRMATION_TOKEN
  | KM_TAG_DEVICE_UNIQUE_ATTESTATION
  | KM_TAG_IDENTITY_CREDENTIAL_KEY
  | KM_TAG_INCLUDE_UNIQUE_ID
  | KM_TAG_MAC_LENGTH
  | KM_TAG_NONCE
  | KM_TAG_RESET_SINCE_ID_ROTATION
  | KM_TAG_ROOT_OF_TRUST
  | KM_TAG_UNIQUE_ID
  (* KeyMint-enforced *)
  | KM_TAG_ALGORITHM
  | KM_TAG_APPLICATION_ID
  | KM_TAG_AUTH_TIMEOUT
  | KM_TAG_BLOB_USAGE_REQUIREMENTS
  | KM_TAG_BLOCK_MODE
  | KM_TAG_BOOT_PATCHLEVEL
  | KM_TAG_CALLER_NONCE
  | KM_TAG_DIGEST
  | KM_TAG_EARLY_BOOT_ONLY
  | KM_TAG_EC_CURVE
  | KM_TAG_EXPORTABLE
  | KM_TAG_KEY_SIZE
  | KM_TAG_MAX_USES_PER_BOOT
  | KM_TAG_MIN_MAC_LENGTH
  | KM_TAG_MIN_SECONDS_BETWEEN_OPS
  | KM_TAG_NO_AUTH_REQUIRED
  | KM_TAG_ORIGIN
  | KM_TAG_OS_PATCHLEVEL
  | KM_TAG_OS_VERSION
  | KM_TAG_PADDING
  | KM_TAG_PURPOSE
  | KM_TAG_RSA_OAEP_MGF_DIGEST
  | KM_TAG_RSA_PUBLIC_EXPONENT
  | KM_TAG_TRUSTED_CONFIRMATION_REQUIRED
  | KM_TAG_TRUSTED_USER_PRESENCE_REQUIRED
  | KM_TAG_UNLOCKED_DEVICE_REQUIRED
  | KM_TAG_USER_AUTH_TYPE
  | KM_TAG_USER_SECURE_ID
  | KM_TAG_VENDOR_PATCHLEVEL
  (* Keystore-enforced *)
  | KM_TAG_ACTIVE_DATETIME
  | KM_TAG_ALL_APPLICATIONS
  | KM_TAG_ALL_USERS
  | KM_TAG_MAX_BOOT_LEVEL
  | KM_TAG_ORIGINATION_EXPIRE_DATETIME
  | KM_TAG_USAGE_EXPIRE_DATETIME
  | KM_TAG_USER_ID
  | KM_TAG_USAGE_COUNT_LIMIT
  (* a value of the enum without a case label *)
  | KM_TAG_unlisted (raw : Z).

Definition keymaster_tag_eq_dec (a b : keymaster_tag_t) : {a = b} + {a <> b}.
Proof. decide equality. apply Z.eq_dec. Defined.

Definition keymaster_tag_eqb (a b : keymaster_tag_t) : bool :=
  if keymaster_tag_eq_dec a b then true else false.

(** Modelled from the spec: the value union of [keymaster_key_param_t]
    (hardware/keymaster_defs.h) is not in src; an authorization tag is "an
    identifier plus a typed value (integer, boolean, byte-blob, or date)". *)
Inductive param_value : Type :=
  | integer (n : Z)
  | boolean (b : bool)
  | blob (data : list byte)
  | date_time (t : Z).

Record keymaster_key_param_t : Type := mk_param {
  tag : keymaster_tag_t;
  value : param_value
}.

(** An [AuthorizationSet] is an ordered sequence; duplicates are permitted. *)
Definition AuthorizationSet : Type := list keymaster_key_param_t.

Definition empty (s : AuthorizationSet) : bool :=
  match s with [] => true | _ :: _ => false end.

(** Modelled from the spec: [AuthorizationSet::Contains]
    (keymaster/authorization_set.h) is not in src; the conditional case is
    "conditionally on requestedTags containing the same tag". *)
Definition Contains (s : AuthorizationSet) (t : keymaster_tag_t) : bool :=
  existsb (fun entry => keymaster_tag_eqb (tag entry) t) s.

(** [AuthorizationSet::push_back]: append at the end. *)
Definition push_back {A : Type} (v : list A) (x : A) : list A := v ++ [x].

(** The AIDL enum [SecurityLevel]: the two values the source names and the two
    of its comment ("pretending to be TRUSTED_ENVIRONMENT or STRONGBOX"). *)
Inductive SecurityLevel : Type :=
  | SOFTWARE
  | TRUSTED_ENVIRONMENT
  | STRONGBOX
  | KEYSTORE.

Definition SecurityLevel_eq_dec (a b : SecurityLevel) : {a = b} + {a <> b}.
Proof. decide equality. Defined.

Definition SecurityLevel_eqb (a b : SecurityLevel) : bool :=
  if SecurityLevel_eq_dec a b then true else false.

(** Modelled from the spec: the AIDL [KeyParameter] and the conversions
    [kmParam2Aidl], [kmParamSet2Aidl] and [KmParamSet] (KeyMintUtils.cpp) are
    not in src.  The spec has one [AuthorizationTag] on both sides, and a
    characteristics entry carries the tags "verbatim": the conversion keeps
    identifier and value, element by element and in order. *)
Definition KeyParameter : Type := keymaster_key_param_t.

Definition kmParam2Aidl (param : keymaster_key_param_t) : KeyParameter := param.

Definition kmParamSet2Aidl (set : AuthorizationSet) : list KeyParameter :=
  map kmParam2Aidl set.

Definition KmParamSet (keyParams : list KeyParameter) : AuthorizationSet :=
  keyParams.

Record KeyCharacteristics : Type := mk_KeyCharacteristics {
  securityLevel : SecurityLevel;
  authorizations : list KeyParameter
}.

(* ================================================================== *)
(** ** The effects of the file: engine calls and CHECK failures *)
(* ================================================================== *)

(** Modelled from the spec: [keymaster_error_t] (hardware/keymaster_defs.h) is
    not in src.  [KM_ERROR_OK] and [KM_ERROR_UNIMPLEMENTED] are the two codes
    the source names; [KM_ERROR_TOO_MANY_OPERATIONS] is the spec's
    "resource-exhaustion error" of a full operation table;
    [KM_ERROR_INVALID_OPERATION_HANDLE] answers a handle that is not in the
    table; every other engine error is [KM_ERROR_other]. *)
Inductive keymaster_error_t : Type :=
  | KM_ERROR_OK
  | KM_ERROR_UNIMPLEMENTED
  | KM_ERROR_TOO_MANY_OPERATIONS
  | KM_ERROR_INVALID_OPERATION_HANDLE
  | KM_ERROR_other (code : Z).

Definition is_KM_ERROR_OK (e : keymaster_error_t) : bool :=
  match e with KM_ERROR_OK => true | _ => false end.

(** Modelled from the spec: [ScopedAStatus] and [kmError2ScopedAStatus]
    (KeyMintUtils.h) are not in src; "every engine error propagates immediately
    and verbatim to the caller". *)
Inductive ScopedAStatus : Type :=
  | ScopedAStatus_ok
  | ScopedAStatus_error (e : keymaster_error_t).

Definition kmError2ScopedAStatus (e : keymaster_error_t) : ScopedAStatus :=
  match e with
  | KM_ERROR_OK => ScopedAStatus_ok
  | _ => ScopedAStatus_error e
  end.

Definition isOk (s : ScopedAStatus) : bool :=
  match s with ScopedAStatus_ok => true | ScopedAStatus_error _ => false end.

(** Byte vectors: [vector<uint8_t>], [KeymasterKeyBlob], [KeymasterBlob]. *)
Definition bytes : Type := list byte.

Definition keymaster_operation_handle_t : Type := Z.

(** The request and response messages of the engine, with the fields this file
    reads or writes.  The [message_version] every message is built with is a
    wire-format detail and is not represented. *)
Module AddEntropyRequest.
Record t : Type := mk { random_data : bytes }.
End AddEntropyRequest.

Module AddEntropyResponse.
Record t : Type := mk { error : keymaster_error_t }.
End AddEntropyResponse.

Module GenerateKeyRequest.
Record t : Type := mk {
  key_description : AuthorizationSet;
  attestation_signing_key_blob : bytes;
  attest_key_params : AuthorizationSet;
  issuer_subject : bytes
}.
End GenerateKeyRequest.

Module GenerateKeyResponse.
Record t : Type := mk {
  error : keymaster_error_t;
  key_blob : bytes;
  enforced : AuthorizationSet;
  unenforced : AuthorizationSet;
  certificate_chain : list bytes
}.
End GenerateKeyResponse.

Module ImportKeyRequest.
Record t : Type := mk {
  key_description : AuthorizationSet;
  key_format : Z;
  key_data : bytes;
  attestation_signing_key_blob : bytes;
  attest_key_params : AuthorizationSet;
  issuer_subject : bytes
}.
End ImportKeyRequest.

Module ImportKeyResponse.
Record t : Type := mk {
  error : keymaster_error_t;
  key_blob : bytes;
  enforced : AuthorizationSet;
  unenforced : AuthorizationSet;
  certificate_chain : list bytes
}.
End ImportKeyResponse.

Module ImportWrappedKeyRequest.
Record t : Type := mk {
  wrapped_key : bytes;
  wrapping_key : bytes;
  masking_key : bytes;
  additional_params : AuthorizationSet;
  password_sid : Z;
  biometric_sid : Z
}.
End ImportWrappedKeyRequest.

Module ImportWrappedKeyResponse.
Record t : Type := mk {
  error : keymaster_error_t;
  key_blob : bytes;
  enforced : AuthorizationSet;
  unenforced : AuthorizationSet;
  certificate_chain : list bytes
}.
End ImportWrappedKeyResponse.

Module UpgradeKeyRequest.
Record t : Type := mk {
  key_blob : bytes;
  upgrade_params : AuthorizationSet
}.
End UpgradeKeyRequest.

Module UpgradeKeyResponse.
Record t : Type := mk {
  error : keymaster_error_t;
  upgraded_key : bytes
}.
End UpgradeKeyResponse.

Module BeginOperationRequest.
Record t : Type := mk {
  purpose : Z;
  key_blob : bytes;
  additional_params : AuthorizationSet
}.
End BeginOperationRequest.

Module BeginOperationResponse.
Record t : Type := mk {
  error : keymaster_error_t;
  op_handle : keymaster_operation_handle_t;
  output_params : AuthorizationSet
}.
End BeginOperationResponse.

Module AbortOperationRequest.
Record t : Type := mk { op_handle : keymaster_operation_handle_t }.
End AbortOperationRequest.

Module AbortOperationResponse.
Record t : Type := mk { error : keymaster_error_t }.
End AbortOperationResponse.

Module GetKeyCharacteristicsRequest.
Record t : Type := mk {
  key_blob : bytes;
  additional_params : AuthorizationSet
}.
End GetKeyCharacteristicsRequest.

Module GetKeyCharacteristicsResponse.
Record t : Type := mk {
  error : keymaster_error_t;
  enforced : AuthorizationSet;
  unenforced : AuthorizationSet
}.
End GetKeyCharacteristicsResponse.

(** The methods of [impl_] the modelled device methods call, each with the type
    of the response it fills in.  [AbortOperation] is the call behind the
    operation object's [abort]. *)
Inductive EngineCall : Type -> Type :=
  | AddRngEntropy (request : AddEntropyRequest.t)
      : EngineCall AddEntropyResponse.t
  | GenerateKey (request : GenerateKeyRequest.t)
      : EngineCall GenerateKeyResponse.t
  | ImportKey (request : ImportKeyRequest.t)
      : EngineCall ImportKeyResponse.t
  | ImportWrappedKey (request : ImportWrappedKeyRequest.t)
      : EngineCall ImportWrappedKeyResponse.t
  | UpgradeKey (request : UpgradeKeyRequest.t)
      : EngineCall UpgradeKeyResponse.t
  | BeginOperation (request : BeginOperationRequest.t)
      : EngineCall BeginOperationResponse.t
  | AbortOperation (request : AbortOperationRequest.t)
      : EngineCall AbortOperationResponse.t
  | GetKeyCharacteristics (request : GetKeyCharacteristicsRequest.t)
      : EngineCall GetKeyCharacteristicsResponse.t.

(** A computation of this file: it returns, dies on a failed [CHECK], or calls
    the engine and goes on with the response. *)
Inductive KM (A : Type) : Type :=
  | Ret (a : A)
  | CheckFail (msg : string)
  | Invoke (R : Type) (call : EngineCall R) (k : R -> KM A).

Arguments CheckFail {A} msg.

Fixpoint bind {A B : Type} (m : KM A) (f : A -> KM B) : KM B :=
  match m with
  | Ret a => f a
  | CheckFail msg => CheckFail msg
  | Invoke call k => Invoke call (fun r => bind (k r) f)
  end.

Notation "x <- m ;; k" := (bind m (fun x => k))
  (at level 61, m at next level, right associativity).
Notation "m ;;; k" := (bind m (fun _ => k))
  (at level 61, right associativity).

Definition invoke {R : Type} (call : EngineCall R) : KM R := Invoke call (@Ret R).

(** [CHECK(cond) << msg]: a failed check ends the process. *)
Definition CHECK (cond : bool) (msg : string) : KM unit :=
  if cond then Ret tt else CheckFail msg.

(** An engine is a state and an answer to every call. *)
Definition Handler (St : Type) : Type :=
  forall R : Type, EngineCall R -> St -> St * R.

Inductive Outcome (St A : Type) : Type :=
  | Done (st : St) (a : A)
  | Aborted (msg : string).

Arguments Aborted {St A} msg.

Fixpoint run {St A : Type} (h : Handler St) (m : KM A) (st : St) : Outcome St A :=
  match m with
  | Ret a => Done st a
  | CheckFail msg => Aborted msg
  | Invoke call k => let (st', r) := h _ call st in run h (k r) st'
  end.

(** The number of engine calls a computation makes against an engine. *)
Fixpoint engine_calls {St A : Type} (h : Handler St) (m : KM A) (st : St) : nat :=
  match m with
  | Ret _ => 0
  | CheckFail _ => 0
  | Invoke call k => let (st', r) := h _ call st in S (engine_calls h (k r) st')
  end.

(* ================================================================== *)
(** ** convertKeyCharacteristics *)
(* ================================================================== *)

(** The body of the switch for one entry of [sw_enforced]: [keyMintEnforced]
    and [keystoreEnforced] are the two authorization lists under
    construction.  A tag without a case label leaves both as they are (the
    switch has no default). *)
Definition switch_entry (requestParams : AuthorizationSet)
    (entry : keymaster_key_param_t)
    (keyMintEnforced keystoreEnforced : list KeyParameter)
    : KM (list KeyParameter * list KeyParameter) :=
  match tag entry with
  (* Invalid and unused *)
  | KM_TAG_ECIES_SINGLE_HASH_MODE
  | KM_TAG_INVALID
  | KM_TAG_KDF
  | KM_TAG_ROLLBACK_RESISTANCE =>
      CheckFail "We shouldn't see tag"

  (* Unimplemented *)
  | KM_TAG_ALLOW_WHILE_ON_BODY
  | KM_TAG_BOOTLOADER_ONLY
  | KM_TAG_ROLLBACK_RESISTANT
  | KM_TAG_STORAGE_KEY =>
      Ret (keyMintEnforced, keystoreEnforced)

  (* Keystore-enforced if not locally generated. *)
  | KM_TAG_CREATION_DATETIME =>
      if Contains requestParams KM_TAG_CREATION_DATETIME
      then Ret (keyMintEnforced, push_back keystoreEnforced (kmParam2Aidl entry))
      else Ret (keyMintEnforced, keystoreEnforced)

  (* Disallowed in KeyCharacteristics *)
  | KM_TAG_APPLICATION_DATA
  | KM_TAG_ATTESTATION_APPLICATION_ID =>
      Ret (keyMintEnforced, keystoreEnforced)

  (* Not key characteristics *)
  | KM_TAG_ASSOCIATED_DATA
  | KM_TAG_ATTESTATION_CHALLENGE
  | KM_TAG_ATTESTATION_ID_BRAND
  | KM_TAG_ATTESTATION_ID_DEVICE
  | KM_TAG_ATTESTATION_ID_IMEI
  | KM_TAG_ATTESTATION_ID_SECOND_IMEI
  | KM_TAG_ATTESTATION_ID_MANUFACTURER
  | KM_TAG_ATTESTATION_ID_MEID
  | KM_TAG_ATTESTATION_ID_MODEL
  | KM_TAG_ATTESTATION_ID_PRODUCT
  | KM_TAG_ATTESTATION_ID_SERIAL
  | KM_TAG_AUTH_TOKEN
  | KM_TAG_CERTIFICATE_SERIAL
  | KM_TAG_CERTIFICATE_SUBJECT
  | KM_TAG_CERTIFICATE_NOT_AFTER
  | KM_TAG_CERTIFICATE_NOT_BEFORE
  | KM_TAG_CONFIRMATION_TOKEN
  | KM_TAG_DEVICE_UNIQUE_ATTESTATION
  | KM_TAG_IDENTITY_CREDENTIAL_KEY
  | KM_TAG_INCLUDE_UNIQUE_ID
  | KM_TAG_MAC_LENGTH
  | KM_TAG_NONCE
  | KM_TAG_RESET_SINCE_ID_ROTATION
  | KM_TAG_ROOT_OF_TRUST
  | KM_TAG_UNIQUE_ID =>
      Ret (keyMintEnforced, keystoreEnforced)

  (* KeyMint-enforced *)
  | KM_TAG_ALGORITHM
  | KM_TAG_APPLICATION_ID
  | KM_TAG_AUTH_TIMEOUT
  | KM_TAG_BLOB_USAGE_REQUIREMENTS
  | KM_TAG_BLOCK_MODE
  | KM_TAG_BOOT_PATCHLEVEL
  | KM_TAG_CALLER_NONCE
  | KM_TAG_DIGEST
  | KM_TAG_EARLY_BOOT_ONLY
  | KM_TAG_EC_CURVE
  | KM_TAG_EXPORTABLE
  | KM_TAG_KEY_SIZE
  | KM_TAG_MAX_USES_PER_BOOT
  | KM_TAG_MIN_MAC_LENGTH
  | KM_TAG_MIN_SECONDS_BETWEEN_OPS
  | KM_TAG_NO_AUTH_REQUIRED
  | KM_TAG_ORIGIN
  | KM_TAG_OS_PATCHLEVEL
  | KM_TAG_OS_VERSION
  | KM_TAG_PADDING
  | KM_TAG_PURPOSE
  | KM_TAG_RSA_OAEP_MGF_DIGEST
  | KM_TAG_RSA_PUBLIC_EXPONENT
  | KM_TAG_TRUSTED_CONFIRMATION_REQUIRED
  | KM_TAG_TRUSTED_USER_PRESENCE_REQUIRED
  | KM_TAG_UNLOCKED_DEVICE_REQUIRED
  | KM_TAG_USER_AUTH_TYPE
  | KM_TAG_USER_SECURE_ID
  | KM_TAG_VENDOR_PATCHLEVEL =>
      Ret (push_back keyMintEnforced (kmParam2Aidl entry), keystoreEnforced)

  (* Keystore-enforced *)
  | KM_TAG_ACTIVE_DATETIME
  | KM_TAG_ALL_APPLICATIONS
  | KM_TAG_ALL_USERS
  | KM_TAG_MAX_BOOT_LEVEL
  | KM_TAG_ORIGINATION_EXPIRE_DATETIME
  | KM_TAG_USAGE_EXPIRE_DATETIME
  | KM_TAG_USER_ID
  | KM_TAG_USAGE_COUNT_LIMIT =>
      Ret (keyMintEnforced, push_back keystoreEnforced (kmParam2Aidl entry))

  | KM_TAG_unlisted _ =>
      Ret (keyMintEnforced, keystoreEnforced)
  end.

(** [for (auto& entry : sw_enforced) switch (entry.tag) ...] *)
Fixpoint for_each_entry (requestParams sw_enforced : AuthorizationSet)
    (keyMintEnforced keystoreEnforced : list KeyParameter)
    : KM (list KeyParameter * list KeyParameter) :=
  match sw_enforced with
  | [] => Ret (keyMintEnforced, keystoreEnforced)
  | entry :: rest =>
      lists <- switch_entry requestParams entry keyMintEnforced keystoreEnforced ;;
      for_each_entry requestParams rest (fst lists) (snd lists)
  end.

Definition convertKeyCharacteristics (keyMintSecurityLevel : SecurityLevel)
    (requestParams sw_enforced hw_enforced : AuthorizationSet)
    (include_keystore_enforced : bool) : KM (list KeyCharacteristics) :=
  if negb (SecurityLevel_eqb keyMintSecurityLevel SOFTWARE) then
    (* We're pretending to be TRUSTED_ENVIRONMENT or STRONGBOX. *)
    let keyMintEnforced :=
      mk_KeyCharacteristics keyMintSecurityLevel (kmParamSet2Aidl hw_enforced) in
    if include_keystore_enforced && negb (empty sw_enforced) then
      (* Put all the software authorizations in the keystore list. *)
      let keystoreEnforced :=
        mk_KeyCharacteristics KEYSTORE (kmParamSet2Aidl sw_enforced) in
      Ret [keyMintEnforced; keystoreEnforced]
    else
      Ret [keyMintEnforced]
  else
    CHECK (empty hw_enforced)
          "Hardware-enforced list is non-empty for pure SW KeyMint" ;;;
    lists <- for_each_entry requestParams sw_enforced [] [] ;;
    let keyMintEnforced := mk_KeyCharacteristics keyMintSecurityLevel (fst lists) in
    let keystoreEnforced := mk_KeyCharacteristics KEYSTORE (snd lists) in
    let retval := [] in
    let retval :=
      if negb (empty (authorizations keyMintEnforced))
      then push_back retval keyMintEnforced else retval in
    let retval :=
      if include_keystore_enforced && negb (empty (authorizations keystoreEnforced))
      then push_back retval keystoreEnforced else retval in
    Ret retval.

(** *** The tag registry

    The categories of the switch: each case group is headed by a comment, and
    the registry gives a tag the category of its group.  A tag without a case
    label has none. *)
Inductive TagCategory : Type :=
  | Invalid               (* "Invalid and unused" *)
  | Unimplemented         (* "Unimplemented" *)
  | ConditionalKeystore   (* "Keystore-enforced if not locally generated" *)
  | Excluded              (* "Disallowed in KeyCharacteristics" *)
  | NotCharacteristic     (* "Not key characteristics" *)
  | HardwareEnforced      (* "KeyMint-enforced" *)
  | KeystoreEnforced.     (* "Keystore-enforced" *)

Definition tag_category (t : keymaster_tag_t) : option TagCategory :=
  match t with
  | KM_TAG_ECIES_SINGLE_HASH_MODE | KM_TAG_INVALID | KM_TAG_KDF
  | KM_TAG_ROLLBACK_RESISTANCE => Some Invalid
  | KM_TAG_ALLOW_WHILE_ON_BODY | KM_TAG_BOOTLOADER_ONLY
  | KM_TAG_ROLLBACK_RESISTANT | KM_TAG_STORAGE_KEY => Some Unimplemented
  | KM_TAG_CREATION_DATETIME => Some ConditionalKeystore
  | KM_TAG_APPLICATION_DATA | KM_TAG_ATTESTATION_APPLICATION_ID => Some Excluded
  | KM_TAG_ASSOCIATED_DATA | KM_TAG_ATTESTATION_CHALLENGE
  | KM_TAG_ATTESTATION_ID_BRAND | KM_TAG_ATTESTATION_ID_DEVICE
  | KM_TAG_ATTESTATION_ID_IMEI | KM_TAG_ATTESTATION_ID_SECOND_IMEI
  | KM_TAG_ATTESTATION_ID_MANUFACTURER | KM_TAG_ATTESTATION_ID_MEID
  | KM_TAG_ATTESTATION_ID_MODEL | KM_TAG_ATTESTATION_ID_PRODUCT
  | KM_TAG_ATTESTATION_ID_SERIAL | KM_TAG_AUTH_TOKEN
  | KM_TAG_CERTIFICATE_SERIAL | KM_TAG_CERTIFICATE_SUBJECT
  | KM_TAG_CERTIFICATE_NOT_AFTER | KM_TAG_CERTIFICATE_NOT_BEFORE
  | KM_TAG_CONFIRMATION_TOKEN | KM_TAG_DEVICE_UNIQUE_ATTESTATION
  | KM_TAG_IDENTITY_CREDENTIAL_KEY | KM_TAG_INCLUDE_UNIQUE_ID
  | KM_TAG_MAC_LENGTH | KM_TAG_NONCE | KM_TAG_RESET_SINCE_ID_ROTATION
  | KM_TAG_ROOT_OF_TRUST | KM_TAG_UNIQUE_ID => Some NotCharacteristic
  | KM_TAG_ALGORITHM | KM_TAG_APPLICATION_ID | KM_TAG_AUTH_TIMEOUT
  | KM_TAG_BLOB_USAGE_REQUIREMENTS | KM_TAG_BLOCK_MODE | KM_TAG_BOOT_PATCHLEVEL
  | KM_TAG_CALLER_NONCE | KM_TAG_DIGEST | KM_TAG_EARLY_BOOT_ONLY
  | KM_TAG_EC_CURVE | KM_TAG_EXPORTABLE | KM_TAG_KEY_SIZE
  | KM_TAG_MAX_USES_PER_BOOT | KM_TAG_MIN_MAC_LENGTH
  | KM_TAG_MIN_SECONDS_BETWEEN_OPS | KM_TAG_NO_AUTH_REQUIRED | KM_TAG_ORIGIN
  | KM_TAG_OS_PATCHLEVEL | KM_TAG_OS_VERSION | KM_TAG_PADDING | KM_TAG_PURPOSE
  | KM_TAG_RSA_OAEP_MGF_DIGEST | KM_TAG_RSA_PUBLIC_EXPONENT
  | KM_TAG_TRUSTED_CONFIRMATION_REQUIRED
  | KM_TAG_TRUSTED_USER_PRESENCE_REQUIRED | KM_TAG_UNLOCKED_DEVICE_REQUIRED
  | KM_TAG_USER_AUTH_TYPE | KM_TAG_USER_SECURE_ID
  | KM_TAG_VENDOR_PATCHLEVEL => Some HardwareEnforced
  | KM_TAG_ACTIVE_DATETIME | KM_TAG_ALL_APPLICATIONS | KM_TAG_ALL_USERS
  | KM_TAG_MAX_BOOT_LEVEL | KM_TAG_ORIGINATION_EXPIRE_DATETIME
  | KM_TAG_USAGE_EXPIRE_DATETIME | KM_TAG_USER_ID
  | KM_TAG_USAGE_COUNT_LIMIT => Some KeystoreEnforced
  | KM_TAG_unlisted _ => None
  end.

(** The authorizations an output list holds for a domain: those of the entries
    that carry this security level. *)
Definition domain_authorizations (domain : SecurityLevel)
    (out : list KeyCharacteristics) : list KeyParameter :=
  flat_map authorizations
    (filter (fun kc => SecurityLevel_eqb (securityLevel kc) domain) out).

(* ================================================================== *)
(** ** AndroidKeyMintDevice *)
(* ================================================================== *)

Module Certificate.
Record t : Type := mk { encodedCertificate : bytes }.
End Certificate.

Module AttestationKey.
Record t : Type := mk {
  keyBlob : bytes;
  attestKeyParams : list KeyParameter;
  issuerSubjectName : bytes
}.
End AttestationKey.

Module KeyCreationResult.
Record t : Type := mk {
  keyBlob : bytes;
  keyCharacteristics : list KeyCharacteristics;
  certificateChain : list Certificate.t
}.
End KeyCreationResult.

(** The operation object [begin] hands out: it keeps the engine's handle. *)
Module AndroidKeyMintOperation.
Record t : Type := mk { opHandle_ : keymaster_operation_handle_t }.
End AndroidKeyMintOperation.

Module BeginResult.
Record t : Type := mk {
  params : list KeyParameter;
  challenge : Z;  (* int64_t *)
  operation : option AndroidKeyMintOperation.t
}.
End BeginResult.

(** The device keeps its security level; its engine [impl_] is reached through
    the [Invoke] nodes of its methods. *)
Record AndroidKeyMintDevice : Type := mk_AndroidKeyMintDevice {
  securityLevel_ : SecurityLevel
}.

Definition kOperationTableSize : nat := 16.

Definition convertCertificate (cert : bytes) : Certificate.t :=
  Certificate.mk cert.

Definition convertCertificateChain (chain : list bytes) : list Certificate.t :=
  map convertCertificate chain.

Definition addClientAndAppData (appId appData : bytes) : AuthorizationSet :=
  let params : AuthorizationSet := [] in
  let params :=
    if (0 <? List.length appId)%nat
    then push_back params (mk_param KM_TAG_APPLICATION_ID (blob appId))
    else params in
  let params :=
    if (0 <? List.length appData)%nat
    then push_back params (mk_param KM_TAG_APPLICATION_DATA (blob appData))
    else params in
  params.


(** *** The rest of the device

    [info] of [getHardwareInfo]: the five fields of the AIDL parcelable, all
    of which the method assigns. *)
Module KeyMintHardwareInfo.
Record t : Type := mk {
  versionNumber : Z;
  securityLevel : SecurityLevel;
  keyMintName : string;
  keyMintAuthorName : string;
  timestampTokenRequired : bool
}.
End KeyMintHardwareInfo.

(** [CreateKeyMintDevice]: the constructor keeps the level in
    [securityLevel_]. *)
Definition CreateKeyMintDevice (securityLevel : SecurityLevel)
    : AndroidKeyMintDevice :=
  mk_AndroidKeyMintDevice securityLevel.

(** The boot patch level the constructor hands to the context:
    [GetOsPatchlevel() * 100 + 1], in [uint32_t] arithmetic. *)
Definition boot_patchlevel (os_patchlevel : Z) : Z :=
  ((os_patchlevel * 100 + 1) mod 2 ^ 32)%Z.

(** The methods this variant does not provide.  The out parameters are
    unnamed in the source: nothing is written to them. *)
Definition destroyAttestationIds : KM ScopedAStatus :=
  Ret (kmError2ScopedAStatus KM_ERROR_UNIMPLEMENTED).

Definition convertStorageKeyToEphemeral (storageKeyBlob ephemeralKeyBlob : bytes)
    : KM (ScopedAStatus * bytes) :=
  Ret (kmError2ScopedAStatus KM_ERROR_UNIMPLEMENTED, ephemeralKeyBlob).

Definition getRootOfTrustChallenge (challenge : bytes)
    : KM (ScopedAStatus * bytes) :=
  Ret (kmError2ScopedAStatus KM_ERROR_UNIMPLEMENTED, challenge).

Definition getRootOfTrust (challenge rootOfTrust : bytes)
    : KM (ScopedAStatus * bytes) :=
  Ret (kmError2ScopedAStatus KM_ERROR_UNIMPLEMENTED, rootOfTrust).

Definition sendRootOfTrust (rootOfTrust : bytes) : KM ScopedAStatus :=
  Ret (kmError2ScopedAStatus KM_ERROR_UNIMPLEMENTED).

(** *** An engine that answers with given lists

    It answers every call without error; to the three creation calls and to
    the lookup it answers with the given enforced and unenforced lists and
    the given certificate chain. *)
Definition answering (enforced unenforced : AuthorizationSet)
    (chain : list bytes) (R : Type) (call : EngineCall R) : R :=
  match call in EngineCall R' return R' with
  | AddRngEntropy _ => AddEntropyResponse.mk KM_ERROR_OK
  | GenerateKey _ =>
      GenerateKeyResponse.mk KM_ERROR_OK [] enforced unenforced chain
  | ImportKey _ => ImportKeyResponse.mk KM_ERROR_OK [] enforced unenforced chain
  | ImportWrappedKey _ =>
      ImportWrappedKeyResponse.mk KM_ERROR_OK [] enforced unenforced chain
  | UpgradeKey _ => UpgradeKeyResponse.mk KM_ERROR_OK []
  | BeginOperation _ => BeginOperationResponse.mk KM_ERROR_OK 5%Z []
  | AbortOperation _ => AbortOperationResponse.mk KM_ERROR_OK
  | GetKeyCharacteristics _ =>
      GetKeyCharacteristicsResponse.mk KM_ERROR_OK enforced unenforced
  end.

(** An engine that begins every operation under the given handle, with one
    output parameter. *)
Definition answering_handle (handle : keymaster_operation_handle_t)
    (R : Type) (call : EngineCall R) : R :=
  match call in EngineCall R' return R' with
  | BeginOperation _ =>
      BeginOperationResponse.mk KM_ERROR_OK handle
        [mk_param KM_TAG_NONCE (blob [x07])]
  | AddRngEntropy _ => AddEntropyResponse.mk KM_ERROR_OK
  | GenerateKey _ => GenerateKeyResponse.mk KM_ERROR_OK [] [] [] []
  | ImportKey _ => ImportKeyResponse.mk KM_ERROR_OK [] [] [] []
  | ImportWrappedKey _ => ImportWrappedKeyResponse.mk KM_ERROR_OK [] [] [] []
  | UpgradeKey _ => UpgradeKeyResponse.mk KM_ERROR_OK []
  | AbortOperation _ => AbortOperationResponse.mk KM_ERROR_OK
  | GetKeyCharacteristics _ => GetKeyCharacteristicsResponse.mk KM_ERROR_OK [] []
  end.

(** *** Two engines to run the calls against

    An engine without state is its answers; [rejecting_reply] answers every
    call with an error, [accepting_reply] with [KM_ERROR_OK] and empty
    fields. *)
Definition stateless (reply : forall R : Type, EngineCall R -> R) : Handler unit :=
  fun R call st => (st, reply R call).

Definition rejecting_reply (R : Type) (call : EngineCall R) : R :=
  match call in EngineCall R' return R' with
  | AddRngEntropy _ => AddEntropyResponse.mk (KM_ERROR_other (-1))
  | GenerateKey _ => GenerateKeyResponse.mk (KM_ERROR_other (-1)) [] [] [] []
  | ImportKey _ => ImportKeyResponse.mk (KM_ERROR_other (-1)) [] [] [] []
  | ImportWrappedKey _ =>
      ImportWrappedKeyResponse.mk (KM_ERROR_other (-1)) [] [] [] []
  | UpgradeKey _ => UpgradeKeyResponse.mk (KM_ERROR_other (-1)) []
  | BeginOperation _ => BeginOperationResponse.mk (KM_ERROR_other (-1)) 0%Z []
  | AbortOperation _ => AbortOperationResponse.mk (KM_ERROR_other (-1))
  | GetKeyCharacteristics _ =>
      GetKeyCharacteristicsResponse.mk (KM_ERROR_other (-1)) [] []
  end.

Definition accepting_reply (R : Type) (call : EngineCall R) : R :=
  match call in EngineCall R' return R' with
  | AddRngEntropy _ => AddEntropyResponse.mk KM_ERROR_OK
  | GenerateKey _ => GenerateKeyResponse.mk KM_ERROR_OK [] [] [] []
  | ImportKey _ => ImportKeyResponse.mk KM_ERROR_OK [] [] [] []
  | ImportWrappedKey _ => ImportWrappedKeyResponse.mk KM_ERROR_OK [] [] [] []
  | UpgradeKey _ => UpgradeKeyResponse.mk KM_ERROR_OK []
  | BeginOperation _ => BeginOperationResponse.mk KM_ERROR_OK 0%Z []
  | AbortOperation _ => AbortOperationResponse.mk KM_ERROR_OK
  | GetKeyCharacteristics _ => GetKeyCharacteristicsResponse.mk KM_ERROR_OK [] []
  end.

Section Device.

(** The helpers of KeyMintUtils this file calls and does not define. *)
Variable kmBlob2vector : bytes -> bytes.
Variable HardwareAuthToken : Type.
Variable authToken2AidlVec : option HardwareAuthToken -> bytes.
Variable legacy_enum_conversion : Z -> Z.

Variable this : AndroidKeyMintDevice.

(** A method with an out parameter takes the value the caller's object has
    and returns the value it has afterwards, next to the status. *)

Definition addRngEntropy (data : bytes) : KM ScopedAStatus :=
  if (List.length data =? 0)%nat then Ret ScopedAStatus_ok
  else
    let request := AddEntropyRequest.mk data in
    response <- invoke (AddRngEntropy request) ;;
    Ret (kmError2ScopedAStatus (AddEntropyResponse.error response)).

Definition generateKey (keyParams : list KeyParameter)
    (attestationKey : option AttestationKey.t)
    (creationResult : KeyCreationResult.t)
    : KM (ScopedAStatus * KeyCreationResult.t) :=
  let request :=
    match attestationKey with
    | Some ak =>
        GenerateKeyRequest.mk (KmParamSet keyParams)
          (AttestationKey.keyBlob ak)
          (KmParamSet (AttestationKey.attestKeyParams ak))
          (AttestationKey.issuerSubjectName ak)
    | None => GenerateKeyRequest.mk (KmParamSet keyParams) [] [] []
    end in
  response <- invoke (GenerateKey request) ;;
  if negb (is_KM_ERROR_OK (GenerateKeyResponse.error response)) then
    Ret (kmError2ScopedAStatus (GenerateKeyResponse.error response),
         creationResult)
  else
    let keyBlob := kmBlob2vector (GenerateKeyResponse.key_blob response) in
    keyCharacteristics <-
      convertKeyCharacteristics (securityLevel_ this)
        (GenerateKeyRequest.key_description request)
        (GenerateKeyResponse.unenforced response)
        (GenerateKeyResponse.enforced response) true ;;
    let certificateChain :=
      convertCertificateChain (GenerateKeyResponse.certificate_chain response) in
    Ret (ScopedAStatus_ok,
         KeyCreationResult.mk keyBlob keyCharacteristics certificateChain).

Definition importKey (keyParams : list KeyParameter) (keyFormat : Z)
    (keyData : bytes) (attestationKey : option AttestationKey.t)
    (creationResult : KeyCreationResult.t)
    : KM (ScopedAStatus * KeyCreationResult.t) :=
  let request :=
    match attestationKey with
    | Some ak =>
        ImportKeyRequest.mk (KmParamSet keyParams)
          (legacy_enum_conversion keyFormat) keyData
          (AttestationKey.keyBlob ak)
          (KmParamSet (AttestationKey.attestKeyParams ak))
          (AttestationKey.issuerSubjectName ak)
    | None =>
        ImportKeyRequest.mk (KmParamSet keyParams)
          (legacy_enum_conversion keyFormat) keyData [] [] []
    end in
  response <- invoke (ImportKey request) ;;
  if negb (is_KM_ERROR_OK (ImportKeyResponse.error response)) then
    Ret (kmError2ScopedAStatus (ImportKeyResponse.error response),
         creationResult)
  else
    let keyBlob := kmBlob2vector (ImportKeyResponse.key_blob response) in
    keyCharacteristics <-
      convertKeyCharacteristics (securityLevel_ this)
        (ImportKeyRequest.key_description request)
        (ImportKeyResponse.unenforced response)
        (ImportKeyResponse.enforced response) true ;;
    let certificateChain :=
      convertCertificateChain (ImportKeyResponse.certificate_chain response) in
    Ret (ScopedAStatus_ok,
         KeyCreationResult.mk keyBlob keyCharacteristics certificateChain).

(** [static_cast<uint64_t>] of an [int64_t]. *)
Definition to_uint64 (x : Z) : Z := (x mod 2 ^ 64)%Z.

(** The conversion of a [uint64_t] to an [int64_t]: the value itself below
    2^63, the value less 2^64 from there on. *)
Definition to_int64 (x : Z) : Z := ((x + 2 ^ 63) mod 2 ^ 64 - 2 ^ 63)%Z.

Definition importWrappedKey (wrappedKeyData wrappingKeyBlob maskingKey : bytes)
    (unwrappingParams : list KeyParameter) (passwordSid biometricSid : Z)
    (creationResult : KeyCreationResult.t)
    : KM (ScopedAStatus * KeyCreationResult.t) :=
  let request :=
    ImportWrappedKeyRequest.mk wrappedKeyData wrappingKeyBlob maskingKey
      (KmParamSet unwrappingParams)
      (to_uint64 passwordSid) (to_uint64 biometricSid) in
  response <- invoke (ImportWrappedKey request) ;;
  if negb (is_KM_ERROR_OK (ImportWrappedKeyResponse.error response)) then
    Ret (kmError2ScopedAStatus (ImportWrappedKeyResponse.error response),
         creationResult)
  else
    let keyBlob := kmBlob2vector (ImportWrappedKeyResponse.key_blob response) in
    keyCharacteristics <-
      convertKeyCharacteristics (securityLevel_ this)
        (ImportWrappedKeyRequest.additional_params request)
        (ImportWrappedKeyResponse.unenforced response)
        (ImportWrappedKeyResponse.enforced response) true ;;
    let certificateChain :=
      convertCertificateChain
        (ImportWrappedKeyResponse.certificate_chain response) in
    Ret (ScopedAStatus_ok,
         KeyCreationResult.mk keyBlob keyCharacteristics certificateChain).

Definition upgradeKey (keyBlobToUpgrade : bytes)
    (upgradeParams : list KeyParameter) (keyBlob : bytes)
    : KM (ScopedAStatus * bytes) :=
  let request :=
    UpgradeKeyRequest.mk keyBlobToUpgrade (KmParamSet upgradeParams) in
  response <- invoke (UpgradeKey request) ;;
  if negb (is_KM_ERROR_OK (UpgradeKeyResponse.error response)) then
    Ret (kmError2ScopedAStatus (UpgradeKeyResponse.error response), keyBlob)
  else
    Ret (ScopedAStatus_ok,
         kmBlob2vector (UpgradeKeyResponse.upgraded_key response)).

Definition begin (purpose : Z) (keyBlob : bytes) (params : list KeyParameter)
    (authToken : option HardwareAuthToken) (result : BeginResult.t)
    : KM (ScopedAStatus * BeginResult.t) :=
  let vector_token := authToken2AidlVec authToken in
  let request :=
    BeginOperationRequest.mk (legacy_enum_conversion purpose) keyBlob
      (push_back (KmParamSet params)
                 (mk_param KM_TAG_AUTH_TOKEN (blob vector_token))) in
  response <- invoke (BeginOperation request) ;;
  if negb (is_KM_ERROR_OK (BeginOperationResponse.error response)) then
    Ret (kmError2ScopedAStatus (BeginOperationResponse.error response), result)
  else
    Ret (ScopedAStatus_ok,
         BeginResult.mk
           (kmParamSet2Aidl (BeginOperationResponse.output_params response))
           (* [challenge] is an int64_t, [op_handle] a uint64_t *)
           (to_int64 (BeginOperationResponse.op_handle response))
           (Some (AndroidKeyMintOperation.mk
                    (BeginOperationResponse.op_handle response)))).

Definition getKeyCharacteristics (keyBlob appId appData : bytes)
    (keyCharacteristics : list KeyCharacteristics)
    : KM (ScopedAStatus * list KeyCharacteristics) :=
  let request :=
    GetKeyCharacteristicsRequest.mk keyBlob (addClientAndAppData appId appData) in
  response <- invoke (GetKeyCharacteristics request) ;;
  if negb (is_KM_ERROR_OK (GetKeyCharacteristicsResponse.error response)) then
    Ret (kmError2ScopedAStatus (GetKeyCharacteristicsResponse.error response),
         keyCharacteristics)
  else
    let emptySet : AuthorizationSet := [] in
    converted <-
      convertKeyCharacteristics (securityLevel_ this) emptySet
        (GetKeyCharacteristicsResponse.unenforced response)
        (GetKeyCharacteristicsResponse.enforced response)
        (* include_keystore_enforced = *) false ;;
    Ret (ScopedAStatus_ok, converted).

(** Modelled from the spec: [AndroidKeyMintOperation::abort]
    (AndroidKeyMintOperation.cpp) is not in src; "aborting an operation
    removes it from the table immediately", and the engine's answer is the
    status of the call. *)
Definition abort (op : AndroidKeyMintOperation.t) : KM ScopedAStatus :=
  let request :=
    AbortOperationRequest.mk (AndroidKeyMintOperation.opHandle_ op) in
  response <- invoke (AbortOperation request) ;;
  Ret (kmError2ScopedAStatus (AbortOperationResponse.error response)).

(** The request [begin] sends for its arguments. *)
Definition begin_request (purpose : Z) (keyBlob : bytes)
    (params : list KeyParameter) (authToken : option HardwareAuthToken)
    : BeginOperationRequest.t :=
  BeginOperationRequest.mk (legacy_enum_conversion purpose) keyBlob
    (push_back (KmParamSet params)
       (mk_param KM_TAG_AUTH_TOKEN (blob (authToken2AidlVec authToken)))).

(** The arguments of one [begin] call, out parameter included. *)
Record BeginCall : Type := mk_BeginCall {
  call_purpose : Z;
  call_keyBlob : bytes;
  call_params : list KeyParameter;
  call_authToken : option HardwareAuthToken;
  call_result : BeginResult.t
}.

Definition begin_call (c : BeginCall) : KM (ScopedAStatus * BeginResult.t) :=
  begin (call_purpose c) (call_keyBlob c) (call_params c) (call_authToken c)
        (call_result c).

Definition request_of (c : BeginCall) : BeginOperationRequest.t :=
  begin_request (call_purpose c) (call_keyBlob c) (call_params c)
                (call_authToken c).

(** A run of [begin] calls one after the other against an engine, none of
    them finished or aborted in between: the state and the results when
    every call returned ok, nothing as soon as one did not. *)
Fixpoint begin_each {St : Type} (h : Handler St) (calls : list BeginCall)
    (st : St) : option (St * list BeginResult.t) :=
  match calls with
  | [] => Some (st, [])
  | c :: rest =>
      match run h (begin_call c) st with
      | Done st' (status, result) =>
          if isOk status then
            match begin_each h rest st' with
            | Some (st'', results) => Some (st'', result :: results)
            | None => None
            end
          else None
      | Aborted _ => None
      end
  end.

(** *** The engine's operation table *)

(** Modelled from the spec: the engine ([AndroidKeymaster]) and its
    operation table are not in src.  [begin] "allocates an entry in a
    bounded operation table (fixed capacity ...); exceeding capacity must
    fail with a resource-exhaustion error rather than silently evicting.
    Handle is unique for the table's lifetime (not reused until explicitly
    freed by finish/abort)"; "aborting an operation removes it from the
    table immediately".  The table holds the live handles; handles are
    issued from a counter. *)
Record OperationTable : Type := mk_OperationTable {
  table_size_ : nat;
  table_ : list keymaster_operation_handle_t;
  next_handle_ : keymaster_operation_handle_t
}.

Definition OperationTable_new (table_size : nat) : OperationTable :=
  mk_OperationTable table_size [] 1%Z.

Definition OperationTable_Add (t : OperationTable)
    : option (OperationTable * keymaster_operation_handle_t) :=
  if (List.length (table_ t) <? table_size_ t)%nat then
    Some (mk_OperationTable (table_size_ t)
            (table_ t ++ [next_handle_ t]) (next_handle_ t + 1)%Z,
          next_handle_ t)
  else None.

Definition OperationTable_Delete (h : keymaster_operation_handle_t)
    (t : OperationTable) : option OperationTable :=
  if in_dec Z.eq_dec h (table_ t) then
    Some (mk_OperationTable (table_size_ t)
            (remove Z.eq_dec h (table_ t)) (next_handle_ t))
  else None.

(** What the engine answers to a call apart from the operation table: for
    [BeginOperation], the response it gives when the table has room. *)
Variable engine_reply : forall R : Type, EngineCall R -> R.

(** Modelled from the spec: the engine as far as the operation table goes.
    A [BeginOperation] the engine rejects for another reason ("auth failure,
    bad purpose for key") leaves the table alone; one it accepts takes an
    entry, or fails with the resource-exhaustion error when there is
    none. *)
Definition AndroidKeymaster : Handler OperationTable :=
  fun R call table =>
    match call in EngineCall R' return OperationTable * R' with
    | BeginOperation request =>
        let response := engine_reply (BeginOperation request) in
        if is_KM_ERROR_OK (BeginOperationResponse.error response) then
          match OperationTable_Add table with
          | Some (table', handle) =>
              (table',
               BeginOperationResponse.mk KM_ERROR_OK handle
                 (BeginOperationResponse.output_params response))
          | None =>
              (table,
               BeginOperationResponse.mk KM_ERROR_TOO_MANY_OPERATIONS 0%Z [])
          end
        else (table, response)
    | AbortOperation request =>
        match OperationTable_Delete (AbortOperationRequest.op_handle request)
                                    table with
        | Some table' => (table', AbortOperationResponse.mk KM_ERROR_OK)
        | None =>
            (table, AbortOperationResponse.mk KM_ERROR_INVALID_OPERATION_HANDLE)
        end
    | AddRngEntropy request => (table, engine_reply (AddRngEntropy request))
    | GenerateKey request => (table, engine_reply (GenerateKey request))
    | ImportKey request => (table, engine_reply (ImportKey request))
    | ImportWrappedKey request =>
        (table, engine_reply (ImportWrappedKey request))
    | UpgradeKey request => (table, engine_reply (UpgradeKey request))
    | GetKeyCharacteristics request =>
        (table, engine_reply (GetKeyCharacteristics request))
    end.

(** The engine the constructor of the device builds:
    [AndroidKeymaster(context, kOperationTableSize)]. *)
Definition impl_new : OperationTable := OperationTable_new kOperationTableSize.

(** *** What the walk keeps, by category *)

Definition is_invalid_tag (entry : keymaster_key_param_t) : bool :=
  match tag_category (tag entry) with
  | Some Invalid => true
  | _ => false
  end.

Definition no_invalid_tag (s : AuthorizationSet) : bool :=
  forallb (fun entry => negb (is_invalid_tag entry)) s.

Definition to_keyMint (entry : keymaster_key_param_t) : bool :=
  match tag_category (tag entry) with
  | Some HardwareEnforced => true
  | _ => false
  end.

Definition to_keystore (requestParams : AuthorizationSet)
    (entry : keymaster_key_param_t) : bool :=
  match tag_category (tag entry) with
  | Some KeystoreEnforced => true
  | Some ConditionalKeystore => Contains requestParams (tag entry)
  | _ => false
  end.

(** The two authorization lists [convertKeyCharacteristics] builds, in closed
    form: the hardware-enforced and software-enforced lists as they are when
    the level is not SOFTWARE, the two selections of the walk when it is. *)
Definition keyMintEnforced_of (level : SecurityLevel)
    (sw_enforced hw_enforced : AuthorizationSet) : list KeyParameter :=
  if SecurityLevel_eqb level SOFTWARE
  then filter to_keyMint sw_enforced
  else hw_enforced.

Definition keystoreEnforced_of (level : SecurityLevel)
    (requestParams sw_enforced : AuthorizationSet) : list KeyParameter :=
  if SecurityLevel_eqb level SOFTWARE
  then filter (to_keystore requestParams) sw_enforced
  else sw_enforced.

(** *** The requests the lifecycle calls send *)

Definition generateKey_request (keyParams : list KeyParameter)
    (attestationKey : option AttestationKey.t) : GenerateKeyRequest.t :=
  match attestationKey with
  | Some ak =>
      GenerateKeyRequest.mk (KmParamSet keyParams)
        (AttestationKey.keyBlob ak)
        (KmParamSet (AttestationKey.attestKeyParams ak))
        (AttestationKey.issuerSubjectName ak)
  | None => GenerateKeyRequest.mk (KmParamSet keyParams) [] [] []
  end.

Definition importKey_request (keyParams : list KeyParameter) (keyFormat : Z)
    (keyData : bytes) (attestationKey : option AttestationKey.t)
    : ImportKeyRequest.t :=
  match attestationKey with
  | Some ak =>
      ImportKeyRequest.mk (KmParamSet keyParams)
        (legacy_enum_conversion keyFormat) keyData
        (AttestationKey.keyBlob ak)
        (KmParamSet (AttestationKey.attestKeyParams ak))
        (AttestationKey.issuerSubjectName ak)
  | None =>
      ImportKeyRequest.mk (KmParamSet keyParams)
        (legacy_enum_conversion keyFormat) keyData [] [] []
  end.

Definition importWrappedKey_request
    (wrappedKeyData wrappingKeyBlob maskingKey : bytes)
    (unwrappingParams : list KeyParameter) (passwordSid biometricSid : Z)
    : ImportWrappedKeyRequest.t :=
  ImportWrappedKeyRequest.mk wrappedKeyData wrappingKeyBlob maskingKey
    (KmParamSet unwrappingParams)
    (to_uint64 passwordSid) (to_uint64 biometricSid).

Definition upgradeKey_request (keyBlobToUpgrade : bytes)
    (upgradeParams : list KeyParameter) : UpgradeKeyRequest.t :=
  UpgradeKeyRequest.mk keyBlobToUpgrade (KmParamSet upgradeParams).

Definition getKeyCharacteristics_request (keyBlob appId appData : bytes)
    : GetKeyCharacteristicsRequest.t :=
  GetKeyCharacteristicsRequest.mk keyBlob (addClientAndAppData appId appData).

(** [getHardwareInfo] assigns every field of [info]. *)
Definition getHardwareInfo (info : KeyMintHardwareInfo.t)
    : KM (ScopedAStatus * KeyMintHardwareInfo.t) :=
  Ret (ScopedAStatus_ok,
       KeyMintHardwareInfo.mk 3 (securityLevel_ this)
         "FakeKeyMintDevice" "Google" false).

(* ================================================================ *)
(** ** The walk over the software-enforced list *)
(* ================================================================ *)

Lemma switch_entry_Ret requestParams entry km ks :
  tag_category (tag entry) <> Some Invalid ->
  switch_entry requestParams entry km ks =
    Ret (km ++ filter to_keyMint [entry],
         ks ++ filter (to_keystore requestParams) [entry]).
Proof.
  destruct entry as [t v]; unfold switch_entry, to_keyMint, to_keystore.
  destruct t; cbn; intros Hok;
    rewrite ?app_nil_r; try reflexivity; try congruence.
  destruct (Contains requestParams KM_TAG_CREATION_DATETIME);
    now rewrite ?app_nil_r.
Qed.

Lemma switch_entry_CheckFail requestParams entry km ks :
  tag_category (tag entry) = Some Invalid ->
  switch_entry requestParams entry km ks = CheckFail "We shouldn't see tag".
Proof.
  destruct entry as [t v]; unfold switch_entry.
  destruct t; cbn; intros Hbad; try reflexivity; discriminate.
Qed.

Lemma for_each_entry_Ret requestParams sw_enforced : forall km ks,
  no_invalid_tag sw_enforced = true ->
  for_each_entry requestParams sw_enforced km ks =
    Ret (km ++ filter to_keyMint sw_enforced,
         ks ++ filter (to_keystore requestParams) sw_enforced).
Proof.
  induction sw_enforced as [|entry rest IH]; intros km ks Hno.
  - cbn. now rewrite !app_nil_r.
  - cbn [no_invalid_tag forallb] in Hno.
    apply andb_true_iff in Hno as [Hentry Hrest].
    cbn [for_each_entry].
    rewrite switch_entry_Ret.
    + cbn [bind fst snd]. rewrite IH by exact Hrest.
      cbn [filter]. 
      destruct (to_keyMint entry), (to_keystore requestParams entry);
        cbn [app]; rewrite <- ?app_assoc, ?app_nil_r; reflexivity.
    + unfold is_invalid_tag in Hentry.
      destruct (tag_category (tag entry)) as [[]|]; cbn in *; congruence.
Qed.

Lemma for_each_entry_CheckFail requestParams sw_enforced : forall km ks,
  no_invalid_tag sw_enforced = false ->
  for_each_entry requestParams sw_enforced km ks =
    CheckFail "We shouldn't see tag".
Proof.
  induction sw_enforced as [|entry rest IH]; intros km ks Hno.
  - discriminate.
  - cbn [no_invalid_tag forallb] in Hno. cbn [for_each_entry].
    destruct (is_invalid_tag entry) eqn:Hentry.
    + rewrite switch_entry_CheckFail; [reflexivity|].
      unfold is_invalid_tag in Hentry.
      destruct (tag_category (tag entry)) as [[]|]; cbn in *; congruence.
    + rewrite switch_entry_Ret.
      * cbn [bind fst snd]. apply IH. exact Hno.
      * unfold is_invalid_tag in Hentry.
        destruct (tag_category (tag entry)) as [[]|]; cbn in *; congruence.
Qed.

(* ================================================================ *)
(** ** convertKeyCharacteristics in closed form *)
(* ================================================================ *)

Lemma kmParamSet2Aidl_id (set : AuthorizationSet) : kmParamSet2Aidl set = set.
Proof. unfold kmParamSet2Aidl, kmParam2Aidl. apply map_id. Qed.

Lemma convert_hardware_level level requestParams sw_enforced hw_enforced inc :
  level <> SOFTWARE ->
  convertKeyCharacteristics level requestParams sw_enforced hw_enforced inc =
    Ret (mk_KeyCharacteristics level hw_enforced ::
         (if inc && negb (empty sw_enforced)
          then [mk_KeyCharacteristics KEYSTORE sw_enforced] else [])).
Proof.
  intros Hlevel. unfold convertKeyCharacteristics, SecurityLevel_eqb.
  destruct (SecurityLevel_eq_dec level SOFTWARE) as [Heq|_]; [contradiction|].
  cbn [negb]. rewrite !kmParamSet2Aidl_id.
  now destruct (inc && negb (empty sw_enforced)).
Qed.

Lemma convert_software_level requestParams sw_enforced hw_enforced inc :
  convertKeyCharacteristics SOFTWARE requestParams sw_enforced hw_enforced inc =
    if empty hw_enforced then
      if no_invalid_tag sw_enforced then
        Ret ((if negb (empty (filter to_keyMint sw_enforced))
              then [mk_KeyCharacteristics SOFTWARE
                      (filter to_keyMint sw_enforced)]
              else []) ++
             (if inc && negb (empty (filter (to_keystore requestParams)
                                            sw_enforced))
              then [mk_KeyCharacteristics KEYSTORE
                      (filter (to_keystore requestParams) sw_enforced)]
              else []))
      else CheckFail "We shouldn't see tag"
    else CheckFail "Hardware-enforced list is non-empty for pure SW KeyMint".
Proof.
  unfold convertKeyCharacteristics. cbn [SecurityLevel_eqb negb].
  change (SecurityLevel_eqb SOFTWARE SOFTWARE) with true. cbn [negb].
  destruct (empty hw_enforced); cbn [CHECK bind]; [|reflexivity].
  destruct (no_invalid_tag sw_enforced) eqn:Hno.
  - rewrite for_each_entry_Ret by exact Hno.
    cbn [bind fst snd app authorizations push_back].
    destruct (negb (empty (filter to_keyMint sw_enforced)));
      destruct (inc && negb (empty (filter (to_keystore requestParams)
                                           sw_enforced)));
      reflexivity.
  - now rewrite for_each_entry_CheckFail by exact Hno.
Qed.

(** The shape of every output, at every level. *)
Lemma convert_Ret_shape level requestParams sw_enforced hw_enforced inc out :
  convertKeyCharacteristics level requestParams sw_enforced hw_enforced inc
    = Ret out ->
  out =
    (if negb (SecurityLevel_eqb level SOFTWARE)
        || negb (empty (keyMintEnforced_of level sw_enforced hw_enforced))
     then [mk_KeyCharacteristics level
             (keyMintEnforced_of level sw_enforced hw_enforced)]
     else []) ++
    (if inc && negb (empty (keystoreEnforced_of level requestParams
                                                sw_enforced))
     then [mk_KeyCharacteristics KEYSTORE
             (keystoreEnforced_of level requestParams sw_enforced)]
     else []).
Proof.
  unfold keyMintEnforced_of, keystoreEnforced_of.
  destruct (SecurityLevel_eq_dec level SOFTWARE) as [->|Hlevel].
  - rewrite convert_software_level.
    change (SecurityLevel_eqb SOFTWARE SOFTWARE) with true. cbn [negb orb].
    destruct (empty hw_enforced); [|discriminate].
    destruct (no_invalid_tag sw_enforced); [|discriminate].
    intros [= <-]. reflexivity.
  - rewrite convert_hardware_level by exact Hlevel.
    unfold SecurityLevel_eqb.
    destruct (SecurityLevel_eq_dec level SOFTWARE); [contradiction|].
    cbn [negb orb]. intros [= <-]. reflexivity.
Qed.

Lemma empty_false_iff (s : AuthorizationSet) : empty s = false <-> s <> [].
Proof. destruct s; cbn; split; congruence. Qed.

Lemma software_domain_authorizations requestParams sw_enforced hw_enforced inc out :
  convertKeyCharacteristics SOFTWARE requestParams sw_enforced hw_enforced inc
    = Ret out ->
  domain_authorizations SOFTWARE out = filter to_keyMint sw_enforced /\
  domain_authorizations KEYSTORE out =
    (if inc then filter (to_keystore requestParams) sw_enforced else []).
Proof.
  rewrite convert_software_level.
  destruct (empty hw_enforced); [|discriminate].
  destruct (no_invalid_tag sw_enforced); [|discriminate].
  intros [= <-]. unfold domain_authorizations.
  destruct (filter to_keyMint sw_enforced) as [|a km];
    destruct (filter (to_keystore requestParams) sw_enforced) as [|b ks];
    destruct inc; cbn; rewrite ?app_nil_r; auto.
Qed.

Lemma to_keyMint_true entry :
  to_keyMint entry = true <-> tag_category (tag entry) = Some HardwareEnforced.
Proof.
  unfold to_keyMint.
  destruct (tag_category (tag entry)) as [[]|]; split; congruence.
Qed.

Lemma to_keystore_true requestParams entry :
  to_keystore requestParams entry = true <->
  tag_category (tag entry) = Some KeystoreEnforced \/
  (tag_category (tag entry) = Some ConditionalKeystore /\
   Contains requestParams (tag entry) = true).
Proof.
  unfold to_keystore.
  destruct (tag_category (tag entry)) as [[]|]; split;
    try congruence; try (intros [H|[H _]]; congruence); auto.
  intros [H|[_ H]]; [discriminate|exact H].
Qed.

(** Where an authorization of a SOFTWARE-level output comes from. *)
Lemma software_output_entry requestParams sw_enforced hw_enforced inc out kc p :
  convertKeyCharacteristics SOFTWARE requestParams sw_enforced hw_enforced inc
    = Ret out ->
  In kc out -> In p (authorizations kc) ->
  In p sw_enforced /\
  ((securityLevel kc = SOFTWARE /\ to_keyMint p = true) \/
   (securityLevel kc = KEYSTORE /\ to_keystore requestParams p = true /\
    inc = true)).
Proof.
  rewrite convert_software_level.
  destruct (empty hw_enforced); [|discriminate].
  destruct (no_invalid_tag sw_enforced); [|discriminate].
  intros [= <-] Hkc Hp. apply in_app_or in Hkc as [Hkc|Hkc].
  - destruct (negb (empty (filter to_keyMint sw_enforced)));
      [|contradiction].
    destruct Hkc as [<-|[]]. cbn in Hp. apply filter_In in Hp as [Hin Hkeep].
    auto.
  - destruct inc; cbn [andb] in Hkc; [|contradiction].
    destruct (negb (empty (filter (to_keystore requestParams) sw_enforced)));
      [|contradiction].
    destruct Hkc as [<-|[]]. cbn in Hp. apply filter_In in Hp as [Hin Hkeep].
    auto.
Qed.

(* ================================================================ *)
(** ** Classification at security level SOFTWARE *)
(* ================================================================ *)

(** C1: at security level SOFTWARE, whenever the classification returns:
    every authorization of the KeyMint-enforced entry (the entry that carries
    the level SOFTWARE, the hardware domain of a software device) is an
    element of the software-enforced list and its tag is HardwareEnforced in
    the registry; every authorization of the KEYSTORE entry is an element of
    the software-enforced list and its tag is KeystoreEnforced, or
    ConditionalKeystore with the tag contained in the request; no tag is in
    both entries; and no tag that is Excluded, NotCharacteristic or
    Unimplemented is in any entry of the output. *)
Theorem software_level_routing requestParams sw_enforced hw_enforced inc out :
  convertKeyCharacteristics SOFTWARE requestParams sw_enforced hw_enforced inc
    = Ret out ->
  (forall p, In p (domain_authorizations SOFTWARE out) ->
     In p sw_enforced /\ tag_category (tag p) = Some HardwareEnforced) /\
  (forall p, In p (domain_authorizations KEYSTORE out) ->
     In p sw_enforced /\
     (tag_category (tag p) = Some KeystoreEnforced \/
      (tag_category (tag p) = Some ConditionalKeystore /\
       Contains requestParams (tag p) = true))) /\
  (forall p q, In p (domain_authorizations SOFTWARE out) ->
     In q (domain_authorizations KEYSTORE out) -> tag p <> tag q) /\
  (forall kc p, In kc out -> In p (authorizations kc) ->
     tag_category (tag p) <> Some Excluded /\
     tag_category (tag p) <> Some NotCharacteristic /\
     tag_category (tag p) <> Some Unimplemented).
Proof.
  intros Hout.
  destruct (@software_domain_authorizations _ _ _ _ _ Hout) as [Hkm Hks].
  assert (Hhw : forall p, In p (domain_authorizations SOFTWARE out) ->
            In p sw_enforced /\ tag_category (tag p) = Some HardwareEnforced).
  { intros p Hp. rewrite Hkm in Hp. apply filter_In in Hp as [Hin Hkeep].
    split; [exact Hin|]. now apply to_keyMint_true. }
  assert (Hkey : forall p, In p (domain_authorizations KEYSTORE out) ->
            In p sw_enforced /\
            (tag_category (tag p) = Some KeystoreEnforced \/
             (tag_category (tag p) = Some ConditionalKeystore /\
              Contains requestParams (tag p) = true))).
  { intros p Hp. rewrite Hks in Hp. destruct inc; [|contradiction].
    apply filter_In in Hp as [Hin Hkeep].
    split; [exact Hin|]. now apply to_keystore_true. }
  assert (Hany : forall kc p, In kc out -> In p (authorizations kc) ->
            tag_category (tag p) = Some HardwareEnforced \/
            tag_category (tag p) = Some KeystoreEnforced \/
            tag_category (tag p) = Some ConditionalKeystore).
  { intros kc p Hkc Hp.
    destruct (@software_output_entry _ _ _ _ _ _ _ Hout Hkc Hp)
      as [_ [[_ Hk]|[_ [Hk _]]]].
    - apply to_keyMint_true in Hk. auto.
    - apply to_keystore_true in Hk as [Hk|[Hk _]]; auto. }
  split; [exact Hhw|]. split; [exact Hkey|]. split.
  - intros p q Hp Hq Heq.
    destruct (Hhw p Hp) as [_ Hcp]. destruct (Hkey q Hq) as [_ Hcq].
    rewrite <- Heq in Hcq. rewrite Hcp in Hcq.
    destruct Hcq as [Hcq|[Hcq _]]; discriminate.
  - intros kc p Hkc Hp.
    destruct (Hany kc p Hkc Hp) as [Hc|[Hc|Hc]]; rewrite Hc;
      repeat split; discriminate.
Qed.

(** Where an entry with the tag CREATION_DATETIME goes at security level
    SOFTWARE, for any request and either value of the flag: into the KEYSTORE
    entry exactly when the request contains a CREATION_DATETIME tag and the
    keystore-enforced list is asked for, never into the KeyMint-enforced
    entry, and otherwise into no entry of the output. *)
Lemma creation_datetime_placement requestParams sw_enforced hw_enforced
    inc out entry :
  convertKeyCharacteristics SOFTWARE requestParams sw_enforced hw_enforced inc
    = Ret out ->
  In entry sw_enforced ->
  tag entry = KM_TAG_CREATION_DATETIME ->
  (In entry (domain_authorizations KEYSTORE out) <->
     Contains requestParams KM_TAG_CREATION_DATETIME = true /\ inc = true) /\
  ~ In entry (domain_authorizations SOFTWARE out) /\
  (~ (Contains requestParams KM_TAG_CREATION_DATETIME = true /\ inc = true) ->
   forall kc, In kc out -> ~ In entry (authorizations kc)).
Proof.
  intros Hout Hin Htag.
  destruct (@software_domain_authorizations _ _ _ _ _ Hout) as [Hkm Hks].
  assert (Hkeep : to_keystore requestParams entry =
                  Contains requestParams KM_TAG_CREATION_DATETIME).
  { unfold to_keystore. now rewrite Htag. }
  assert (Hnot : to_keyMint entry = false).
  { unfold to_keyMint. now rewrite Htag. }
  split; [|split].
  - rewrite Hks. destruct inc.
    + rewrite filter_In, Hkeep. tauto.
    + cbn. split; [contradiction|]. intros [_ H]; discriminate.
  - rewrite Hkm, filter_In, Hnot. intros [_ H]; discriminate.
  - intros Hno kc Hkc Hp.
    destruct (@software_output_entry _ _ _ _ _ _ _ Hout Hkc Hp)
      as [_ [[_ Hk]|[_ [Hk Hinc]]]].
    + congruence.
    + apply Hno. rewrite <- Hkeep. auto.
Qed.

(** C4: at security level SOFTWARE, in every call the file makes of the
    classification (the three creation calls pass the request with the flag
    at its default true; getKeyCharacteristics passes the flag false together
    with the empty request), whenever it returns, an entry of the
    software-enforced list with the tag CREATION_DATETIME is in the KEYSTORE
    entry if and only if the request contains a CREATION_DATETIME tag;
    otherwise it is in no entry of the output.  It is never in the
    KeyMint-enforced entry. *)
Theorem creation_datetime_iff_requested requestParams sw_enforced hw_enforced
    inc out entry :
  inc = true \/ requestParams = [] ->
  convertKeyCharacteristics SOFTWARE requestParams sw_enforced hw_enforced inc
    = Ret out ->
  In entry sw_enforced ->
  tag entry = KM_TAG_CREATION_DATETIME ->
  (In entry (domain_authorizations KEYSTORE out) <->
     Contains requestParams KM_TAG_CREATION_DATETIME = true) /\
  (Contains requestParams KM_TAG_CREATION_DATETIME <> true ->
   forall kc, In kc out -> ~ In entry (authorizations kc)) /\
  ~ In entry (domain_authorizations SOFTWARE out).
Proof.
  intros Hcall Hout Hin Htag.
  destruct (@creation_datetime_placement _ _ _ _ _ _ Hout Hin Htag)
    as (Hiff & Hnot & Hdrop).
  assert (Hflag : Contains requestParams KM_TAG_CREATION_DATETIME = true ->
                  inc = true).
  { destruct Hcall as [->| ->]; [reflexivity|discriminate]. }
  split; [|split; [|exact Hnot]].
  - rewrite Hiff. split; [now intros [Hc _]|auto].
  - intros Hno. apply Hdrop. now intros [Hc _].
Qed.

(* ================================================================ *)
(** ** Classification at the other security levels *)
(* ================================================================ *)

(** C2: at every security level other than SOFTWARE the classification
    returns, its first entry carries the level and the hardware-enforced
    list as it is (same elements, same order, no tag looked up); the
    KEYSTORE entry follows with the software-enforced list as it is when
    the keystore-enforced list is asked for, and is absent when it is not
    asked for (or when the software-enforced list is empty). *)
Theorem hardware_level_verbatim level requestParams sw_enforced hw_enforced inc :
  level <> SOFTWARE ->
  (inc = true -> sw_enforced <> [] ->
   convertKeyCharacteristics level requestParams sw_enforced hw_enforced inc =
     Ret [mk_KeyCharacteristics level hw_enforced;
          mk_KeyCharacteristics KEYSTORE sw_enforced]) /\
  (inc = true -> sw_enforced = [] ->
   convertKeyCharacteristics level requestParams sw_enforced hw_enforced inc =
     Ret [mk_KeyCharacteristics level hw_enforced]) /\
  (inc = false ->
   convertKeyCharacteristics level requestParams sw_enforced hw_enforced inc =
     Ret [mk_KeyCharacteristics level hw_enforced]).
Proof.
  intros Hlevel. rewrite convert_hardware_level by exact Hlevel.
  repeat split.
  - intros -> Hsw. apply empty_false_iff in Hsw. now rewrite Hsw.
  - now intros -> ->.
  - now intros ->.
Qed.

(** C3, as the code has it: the check that the hardware-enforced list is
    empty belongs to security level SOFTWARE, where a non-empty list is a
    failed CHECK whatever the other arguments are; at every other level no
    such check is made, and the classification returns with the
    hardware-enforced list in its first entry. *)
Theorem hardware_list_check :
  (forall requestParams sw_enforced hw_enforced inc,
     hw_enforced <> [] ->
     convertKeyCharacteristics SOFTWARE requestParams sw_enforced hw_enforced
                               inc =
       CheckFail "Hardware-enforced list is non-empty for pure SW KeyMint") /\
  (forall level requestParams sw_enforced hw_enforced inc,
     level <> SOFTWARE ->
     exists out,
       convertKeyCharacteristics level requestParams sw_enforced hw_enforced
                                 inc = Ret out /\
       In (mk_KeyCharacteristics level hw_enforced) out).
Proof.
  split.
  - intros requestParams sw_enforced hw_enforced inc Hhw.
    rewrite convert_software_level.
    apply empty_false_iff in Hhw. now rewrite Hhw.
  - intros level requestParams sw_enforced hw_enforced inc Hlevel.
    rewrite convert_hardware_level by exact Hlevel.
    eexists. split; [reflexivity|]. now left.
Qed.

(* ================================================================ *)
(** ** The output list *)
(* ================================================================ *)

(** C5, as the code has it: whenever the classification returns, the output
    is the KeyMint-enforced entry followed by the KEYSTORE entry, each
    present or not.  The KEYSTORE entry is present exactly when it is asked
    for and not empty, at every level.  The KeyMint-enforced entry is left
    out when empty only at level SOFTWARE, where no entry of the output is
    empty; at every other level it is always there, empty or not. *)
Theorem output_order_and_omission level requestParams sw_enforced hw_enforced
    inc out :
  convertKeyCharacteristics level requestParams sw_enforced hw_enforced inc
    = Ret out ->
  out =
    (if negb (SecurityLevel_eqb level SOFTWARE)
        || negb (empty (keyMintEnforced_of level sw_enforced hw_enforced))
     then [mk_KeyCharacteristics level
             (keyMintEnforced_of level sw_enforced hw_enforced)]
     else []) ++
    (if inc && negb (empty (keystoreEnforced_of level requestParams
                                                sw_enforced))
     then [mk_KeyCharacteristics KEYSTORE
             (keystoreEnforced_of level requestParams sw_enforced)]
     else []) /\
  (level = SOFTWARE -> forall kc, In kc out -> authorizations kc <> []) /\
  (level <> SOFTWARE ->
   hd_error out = Some (mk_KeyCharacteristics level hw_enforced)).
Proof.
  intros Hout. pose proof (convert_Ret_shape _ _ _ _ _ Hout) as Hshape.
  split; [exact Hshape|]. split.
  - intros -> kc Hkc. rewrite Hshape in Hkc.
    change (SecurityLevel_eqb SOFTWARE SOFTWARE) with true in Hkc.
    cbn [negb orb] in Hkc.
    apply in_app_or in Hkc as [Hkc|Hkc].
    + destruct (empty (keyMintEnforced_of SOFTWARE sw_enforced hw_enforced))
        eqn:He; cbn in Hkc; [contradiction|].
      destruct Hkc as [<-|[]]. cbn. now apply empty_false_iff.
    + destruct inc; cbn [andb] in Hkc; [|contradiction].
      destruct (empty (keystoreEnforced_of SOFTWARE requestParams sw_enforced))
        eqn:He; cbn in Hkc; [contradiction|].
      destruct Hkc as [<-|[]]. cbn. now apply empty_false_iff.
  - intros Hlevel. rewrite convert_hardware_level in Hout by exact Hlevel.
    injection Hout as <-. reflexivity.
Qed.

(* ================================================================ *)
(** ** Running a computation *)
(* ================================================================ *)

Lemma run_bind {St A B : Type} (h : Handler St) (m : KM A) (f : A -> KM B) :
  forall st,
  run h (bind m f) st =
    match run h m st with
    | Done st' a => run h (f a) st'
    | Aborted msg => Aborted msg
    end.
Proof.
  induction m as [a|msg|R call k IH]; intros st; cbn; try reflexivity.
  destruct (h R call st) as [st' r]. apply IH.
Qed.

Lemma run_invoke {St R : Type} (h : Handler St) (call : EngineCall R) st :
  run h (invoke call) st = Done (fst (h R call st)) (snd (h R call st)).
Proof. cbn. now destruct (h R call st). Qed.

Lemma run_classification {St : Type} (h : Handler St) st
    level requestParams sw_enforced hw_enforced inc :
  run h (convertKeyCharacteristics level requestParams sw_enforced
                                   hw_enforced inc) st =
    match convertKeyCharacteristics level requestParams sw_enforced
                                    hw_enforced inc with
    | Ret out => Done st out
    | CheckFail msg => Aborted msg
    | Invoke _ _ => Aborted "unreachable"
    end.
Proof.
  destruct (SecurityLevel_eq_dec level SOFTWARE) as [->|Hlevel].
  - rewrite convert_software_level.
    now destruct (empty hw_enforced), (no_invalid_tag sw_enforced).
  - now rewrite convert_hardware_level by exact Hlevel.
Qed.

Lemma is_KM_ERROR_OK_true e : is_KM_ERROR_OK e = true <-> e = KM_ERROR_OK.
Proof. destruct e; cbn; split; congruence. Qed.

Lemma kmError2ScopedAStatus_error e :
  e <> KM_ERROR_OK -> kmError2ScopedAStatus e = ScopedAStatus_error e.
Proof. destruct e; cbn; congruence. Qed.

Lemma is_KM_ERROR_OK_false e : e <> KM_ERROR_OK -> is_KM_ERROR_OK e = false.
Proof. destruct e; cbn; congruence. Qed.

(* ================================================================ *)
(** ** The lifecycle calls *)
(* ================================================================ *)

Lemma run_generateKey {St : Type} (h : Handler St) st st' response
    keyParams attestationKey creationResult :
  h _ (GenerateKey (generateKey_request keyParams attestationKey)) st
    = (st', response) ->
  run h (generateKey keyParams attestationKey creationResult) st =
    if is_KM_ERROR_OK (GenerateKeyResponse.error response) then
      match convertKeyCharacteristics (securityLevel_ this)
              (KmParamSet keyParams)
              (GenerateKeyResponse.unenforced response)
              (GenerateKeyResponse.enforced response) true with
      | Ret characteristics =>
          Done st' (ScopedAStatus_ok,
                    KeyCreationResult.mk
                      (kmBlob2vector (GenerateKeyResponse.key_blob response))
                      characteristics
                      (convertCertificateChain
                         (GenerateKeyResponse.certificate_chain response)))
      | CheckFail msg => Aborted msg
      | Invoke _ _ => Aborted "unreachable"
      end
    else Done st' (kmError2ScopedAStatus (GenerateKeyResponse.error response),
                   creationResult).
Proof.
  intros Hh. unfold generateKey. rewrite run_bind, run_invoke.
  fold (generateKey_request keyParams attestationKey). rewrite Hh.
  cbn [fst snd].
  destruct (is_KM_ERROR_OK (GenerateKeyResponse.error response));
    cbn [negb]; [|reflexivity].
  rewrite run_bind, run_classification.
  replace (GenerateKeyRequest.key_description
             (generateKey_request keyParams attestationKey))
    with (KmParamSet keyParams) by now destruct attestationKey.
  now destruct (convertKeyCharacteristics _ _ _ _ _).
Qed.

Lemma run_importKey {St : Type} (h : Handler St) st st' response
    keyParams keyFormat keyData attestationKey creationResult :
  h _ (ImportKey (importKey_request keyParams keyFormat keyData
                                    attestationKey)) st
    = (st', response) ->
  run h (importKey keyParams keyFormat keyData attestationKey creationResult)
      st =
    if is_KM_ERROR_OK (ImportKeyResponse.error response) then
      match convertKeyCharacteristics (securityLevel_ this)
              (KmParamSet keyParams)
              (ImportKeyResponse.unenforced response)
              (ImportKeyResponse.enforced response) true with
      | Ret characteristics =>
          Done st' (ScopedAStatus_ok,
                    KeyCreationResult.mk
                      (kmBlob2vector (ImportKeyResponse.key_blob response))
                      characteristics
                      (convertCertificateChain
                         (ImportKeyResponse.certificate_chain response)))
      | CheckFail msg => Aborted msg
      | Invoke _ _ => Aborted "unreachable"
      end
    else Done st' (kmError2ScopedAStatus (ImportKeyResponse.error response),
                   creationResult).
Proof.
  intros Hh. unfold importKey. rewrite run_bind, run_invoke.
  fold (importKey_request keyParams keyFormat keyData attestationKey).
  rewrite Hh. cbn [fst snd].
  destruct (is_KM_ERROR_OK (ImportKeyResponse.error response));
    cbn [negb]; [|reflexivity].
  rewrite run_bind, run_classification.
  replace (ImportKeyRequest.key_description
             (importKey_request keyParams keyFormat keyData attestationKey))
    with (KmParamSet keyParams) by now destruct attestationKey.
  now destruct (convertKeyCharacteristics _ _ _ _ _).
Qed.

Lemma run_importWrappedKey {St : Type} (h : Handler St) st st' response
    wrappedKeyData wrappingKeyBlob maskingKey unwrappingParams
    passwordSid biometricSid creationResult :
  h _ (ImportWrappedKey
         (importWrappedKey_request wrappedKeyData wrappingKeyBlob maskingKey
            unwrappingParams passwordSid biometricSid)) st
    = (st', response) ->
  run h (importWrappedKey wrappedKeyData wrappingKeyBlob maskingKey
           unwrappingParams passwordSid biometricSid creationResult) st =
    if is_KM_ERROR_OK (ImportWrappedKeyResponse.error response) then
      match convertKeyCharacteristics (securityLevel_ this)
              (KmParamSet unwrappingParams)
              (ImportWrappedKeyResponse.unenforced response)
              (ImportWrappedKeyResponse.enforced response) true with
      | Ret characteristics =>
          Done st' (ScopedAStatus_ok,
                    KeyCreationResult.mk
                      (kmBlob2vector
                         (ImportWrappedKeyResponse.key_blob response))
                      characteristics
                      (convertCertificateChain
                         (ImportWrappedKeyResponse.certificate_chain
                            response)))
      | CheckFail msg => Aborted msg
      | Invoke _ _ => Aborted "unreachable"
      end
    else Done st' (kmError2ScopedAStatus
                     (ImportWrappedKeyResponse.error response),
                   creationResult).
Proof.
  intros Hh. unfold importWrappedKey. rewrite run_bind, run_invoke.
  fold (importWrappedKey_request wrappedKeyData wrappingKeyBlob maskingKey
          unwrappingParams passwordSid biometricSid).
  rewrite Hh. cbn [fst snd].
  destruct (is_KM_ERROR_OK (ImportWrappedKeyResponse.error response));
    cbn [negb]; [|reflexivity].
  rewrite run_bind, run_classification.
  cbn [importWrappedKey_request ImportWrappedKeyRequest.additional_params].
  now destruct (convertKeyCharacteristics _ _ _ _ _).
Qed.

Lemma run_upgradeKey {St : Type} (h : Handler St) st st' response
    keyBlobToUpgrade upgradeParams keyBlob :
  h _ (UpgradeKey (upgradeKey_request keyBlobToUpgrade upgradeParams)) st
    = (st', response) ->
  run h (upgradeKey keyBlobToUpgrade upgradeParams keyBlob) st =
    if is_KM_ERROR_OK (UpgradeKeyResponse.error response) then
      Done st' (ScopedAStatus_ok,
                kmBlob2vector (UpgradeKeyResponse.upgraded_key response))
    else Done st' (kmError2ScopedAStatus (UpgradeKeyResponse.error response),
                   keyBlob).
Proof.
  intros Hh. unfold upgradeKey. rewrite run_bind, run_invoke.
  fold (upgradeKey_request keyBlobToUpgrade upgradeParams).
  rewrite Hh. cbn [fst snd].
  now destruct (is_KM_ERROR_OK (UpgradeKeyResponse.error response)).
Qed.

Lemma run_getKeyCharacteristics {St : Type} (h : Handler St) st st' response
    keyBlob appId appData keyCharacteristics :
  h _ (GetKeyCharacteristics
         (getKeyCharacteristics_request keyBlob appId appData)) st
    = (st', response) ->
  run h (getKeyCharacteristics keyBlob appId appData keyCharacteristics) st =
    if is_KM_ERROR_OK (GetKeyCharacteristicsResponse.error response) then
      match convertKeyCharacteristics (securityLevel_ this) []
              (GetKeyCharacteristicsResponse.unenforced response)
              (GetKeyCharacteristicsResponse.enforced response) false with
      | Ret converted => Done st' (ScopedAStatus_ok, converted)
      | CheckFail msg => Aborted msg
      | Invoke _ _ => Aborted "unreachable"
      end
    else Done st' (kmError2ScopedAStatus
                     (GetKeyCharacteristicsResponse.error response),
                   keyCharacteristics).
Proof.
  intros Hh. unfold getKeyCharacteristics. rewrite run_bind, run_invoke.
  fold (getKeyCharacteristics_request keyBlob appId appData).
  rewrite Hh. cbn [fst snd].
  destruct (is_KM_ERROR_OK (GetKeyCharacteristicsResponse.error response));
    cbn [negb]; [|reflexivity].
  rewrite run_bind, run_classification.
  now destruct (convertKeyCharacteristics _ _ _ _ _).
Qed.

(** C7: in generateKey, importKey, importWrappedKey and upgradeKey alike,
    when the engine's response carries an error the call returns that error
    and its out parameter is as the caller passed it: no field is written.
    When the response carries no error (and the classification returns, for
    the three calls that classify), the call returns ok and every field of
    the out parameter holds a value taken from the response. *)
Theorem engine_error_leaves_outputs (St : Type) (h : Handler St) (st st' : St) :
  (forall keyParams attestationKey creationResult response,
     h _ (GenerateKey (generateKey_request keyParams attestationKey)) st
       = (st', response) ->
     (GenerateKeyResponse.error response <> KM_ERROR_OK ->
      run h (generateKey keyParams attestationKey creationResult) st =
        Done st' (ScopedAStatus_error (GenerateKeyResponse.error response),
                  creationResult)) /\
     (GenerateKeyResponse.error response = KM_ERROR_OK ->
      forall characteristics,
        convertKeyCharacteristics (securityLevel_ this) (KmParamSet keyParams)
          (GenerateKeyResponse.unenforced response)
          (GenerateKeyResponse.enforced response) true = Ret characteristics ->
        run h (generateKey keyParams attestationKey creationResult) st =
          Done st' (ScopedAStatus_ok,
                    KeyCreationResult.mk
                      (kmBlob2vector (GenerateKeyResponse.key_blob response))
                      characteristics
                      (convertCertificateChain
                         (GenerateKeyResponse.certificate_chain response))))) /\
  (forall keyParams keyFormat keyData attestationKey creationResult response,
     h _ (ImportKey (importKey_request keyParams keyFormat keyData
                                       attestationKey)) st
       = (st', response) ->
     (ImportKeyResponse.error response <> KM_ERROR_OK ->
      run h (importKey keyParams keyFormat keyData attestationKey
                       creationResult) st =
        Done st' (ScopedAStatus_error (ImportKeyResponse.error response),
                  creationResult)) /\
     (ImportKeyResponse.error response = KM_ERROR_OK ->
      forall characteristics,
        convertKeyCharacteristics (securityLevel_ this) (KmParamSet keyParams)
          (ImportKeyResponse.unenforced response)
          (ImportKeyResponse.enforced response) true = Ret characteristics ->
        run h (importKey keyParams keyFormat keyData attestationKey
                         creationResult) st =
          Done st' (ScopedAStatus_ok,
                    KeyCreationResult.mk
                      (kmBlob2vector (ImportKeyResponse.key_blob response))
                      characteristics
                      (convertCertificateChain
                         (ImportKeyResponse.certificate_chain response))))) /\
  (forall wrappedKeyData wrappingKeyBlob maskingKey unwrappingParams
          passwordSid biometricSid creationResult response,
     h _ (ImportWrappedKey
            (importWrappedKey_request wrappedKeyData wrappingKeyBlob
               maskingKey unwrappingParams passwordSid biometricSid)) st
       = (st', response) ->
     (ImportWrappedKeyResponse.error response <> KM_ERROR_OK ->
      run h (importWrappedKey wrappedKeyData wrappingKeyBlob maskingKey
               unwrappingParams passwordSid biometricSid creationResult) st =
        Done st' (ScopedAStatus_error
                    (ImportWrappedKeyResponse.error response),
                  creationResult)) /\
     (ImportWrappedKeyResponse.error response = KM_ERROR_OK ->
      forall characteristics,
        convertKeyCharacteristics (securityLevel_ this)
          (KmParamSet unwrappingParams)
          (ImportWrappedKeyResponse.unenforced response)
          (ImportWrappedKeyResponse.enforced response) true
          = Ret characteristics ->
        run h (importWrappedKey wrappedKeyData wrappingKeyBlob maskingKey
                 unwrappingParams passwordSid biometricSid creationResult) st =
          Done st' (ScopedAStatus_ok,
                    KeyCreationResult.mk
                      (kmBlob2vector
                         (ImportWrappedKeyResponse.key_blob response))
                      characteristics
                      (convertCertificateChain
                         (ImportWrappedKeyResponse.certificate_chain
                            response))))) /\
  (forall keyBlobToUpgrade upgradeParams keyBlob response,
     h _ (UpgradeKey (upgradeKey_request keyBlobToUpgrade upgradeParams)) st
       = (st', response) ->
     (UpgradeKeyResponse.error response <> KM_ERROR_OK ->
      run h (upgradeKey keyBlobToUpgrade upgradeParams keyBlob) st =
        Done st' (ScopedAStatus_error (UpgradeKeyResponse.error response),
                  keyBlob)) /\
     (UpgradeKeyResponse.error response = KM_ERROR_OK ->
      run h (upgradeKey keyBlobToUpgrade upgradeParams keyBlob) st =
        Done st' (ScopedAStatus_ok,
                  kmBlob2vector (UpgradeKeyResponse.upgraded_key response)))).
Proof.
  repeat apply conj.
  - intros keyParams attestationKey creationResult response Hh.
    erewrite run_generateKey by exact Hh. split.
    + intros Herr. rewrite is_KM_ERROR_OK_false by exact Herr.
      now rewrite kmError2ScopedAStatus_error.
    + intros -> characteristics ->. reflexivity.
  - intros keyParams keyFormat keyData attestationKey creationResult
           response Hh.
    erewrite run_importKey by exact Hh. split.
    + intros Herr. rewrite is_KM_ERROR_OK_false by exact Herr.
      now rewrite kmError2ScopedAStatus_error.
    + intros -> characteristics ->. reflexivity.
  - intros wrappedKeyData wrappingKeyBlob maskingKey unwrappingParams
           passwordSid biometricSid creationResult response Hh.
    erewrite run_importWrappedKey by exact Hh. split.
    + intros Herr. rewrite is_KM_ERROR_OK_false by exact Herr.
      now rewrite kmError2ScopedAStatus_error.
    + intros -> characteristics ->. reflexivity.
  - intros keyBlobToUpgrade upgradeParams keyBlob response Hh.
    erewrite run_upgradeKey by exact Hh. split.
    + intros Herr. rewrite is_KM_ERROR_OK_false by exact Herr.
      now rewrite kmError2ScopedAStatus_error.
    + intros ->. reflexivity.
Qed.


(** C10: addRngEntropy with an empty buffer is the immediate return of ok: no
    engine call is made, whatever the engine.  With a non-empty buffer it is
    one AddRngEntropy call carrying the buffer, and the status is the one of
    the engine's response. *)
Theorem addRngEntropy_empty_skips_engine :
  addRngEntropy [] = Ret ScopedAStatus_ok /\
  (forall (St : Type) (h : Handler St) (st : St),
     engine_calls h (addRngEntropy []) st = 0 /\
     run h (addRngEntropy []) st = Done st ScopedAStatus_ok) /\
  (forall data, data <> [] ->
   forall (St : Type) (h : Handler St) (st : St),
     engine_calls h (addRngEntropy data) st = 1 /\
     run h (addRngEntropy data) st =
       Done (fst (h _ (AddRngEntropy (AddEntropyRequest.mk data)) st))
            (kmError2ScopedAStatus
               (AddEntropyResponse.error
                  (snd (h _ (AddRngEntropy (AddEntropyRequest.mk data)) st))))).
Proof.
  split; [reflexivity|]. split.
  - intros St h st. split; reflexivity.
  - intros data Hdata St h st. destruct data as [|b data]; [contradiction|].
    unfold addRngEntropy. cbn.
    destruct (h _ (AddRngEntropy (AddEntropyRequest.mk (b :: data))) st)
      as [st1 response].
    split; reflexivity.
Qed.

(* ================================================================ *)
(** ** The operation table *)
(* ================================================================ *)

Lemma run_begin_call (c : BeginCall) (table : OperationTable) :
  run AndroidKeymaster (begin_call c) table =
    let response := engine_reply (BeginOperation (request_of c)) in
    if is_KM_ERROR_OK (BeginOperationResponse.error response) then
      match OperationTable_Add table with
      | Some (table', handle) =>
          Done table'
            (ScopedAStatus_ok,
             BeginResult.mk
               (BeginOperationResponse.output_params response)
               (to_int64 handle)
               (Some (AndroidKeyMintOperation.mk handle)))
      | None =>
          Done table
            (ScopedAStatus_error KM_ERROR_TOO_MANY_OPERATIONS, call_result c)
      end
    else
      Done table
        (ScopedAStatus_error (BeginOperationResponse.error response),
         call_result c).
Proof.
  unfold begin_call, begin. rewrite run_bind, run_invoke.
  fold (begin_request (call_purpose c) (call_keyBlob c) (call_params c)
                      (call_authToken c)).
  fold (request_of c). cbv zeta. cbn [AndroidKeymaster].
  destruct (is_KM_ERROR_OK
              (BeginOperationResponse.error
                 (engine_reply (BeginOperation (request_of c))))) eqn:Herr.
  - destruct (OperationTable_Add table) as [[table' handle]|]; cbn.
    + now rewrite kmParamSet2Aidl_id.
    + reflexivity.
  - cbn [fst snd]. rewrite Herr. cbn [negb run].
    rewrite kmError2ScopedAStatus_error; [reflexivity|].
    intros Hok. now rewrite Hok in Herr.
Qed.

Lemma OperationTable_Add_Some table table' handle :
  OperationTable_Add table = Some (table', handle) ->
  table_size_ table' = table_size_ table /\
  table_ table' = table_ table ++ [handle] /\
  (List.length (table_ table) < table_size_ table)%nat.
Proof.
  unfold OperationTable_Add.
  destruct (Nat.ltb_spec (List.length (table_ table)) (table_size_ table));
    [|discriminate].
  intros [= <- <-]. cbn. auto.
Qed.

Lemma OperationTable_Add_room table :
  (List.length (table_ table) < table_size_ table)%nat ->
  exists table' handle, OperationTable_Add table = Some (table', handle).
Proof.
  intros Hroom. unfold OperationTable_Add.
  apply Nat.ltb_lt in Hroom. rewrite Hroom. eauto.
Qed.

Lemma OperationTable_Add_full table :
  (table_size_ table <= List.length (table_ table))%nat ->
  OperationTable_Add table = None.
Proof.
  intros Hfull. unfold OperationTable_Add.
  apply Nat.ltb_ge in Hfull. now rewrite Hfull.
Qed.

(** What a run of successful [begin] calls does to the table. *)
Lemma begin_each_table calls : forall table table' results,
  begin_each AndroidKeymaster calls table = Some (table', results) ->
  table_size_ table' = table_size_ table /\
  exists handles,
    table_ table' = table_ table ++ handles /\
    List.length handles = List.length calls /\
    forall r, In r results ->
      exists handle,
        BeginResult.operation r = Some (AndroidKeyMintOperation.mk handle) /\
        In handle handles.
Proof.
  induction calls as [|c rest IH]; intros table table' results.
  - cbn. intros [= <- <-]. split; [reflexivity|].
    exists []. rewrite app_nil_r. repeat split. intros r [].
  - cbn [begin_each]. rewrite run_begin_call. cbv zeta.
    destruct (is_KM_ERROR_OK _); [|discriminate].
    destruct (OperationTable_Add table) as [[table1 handle]|] eqn:Hadd;
      [|discriminate].
    cbn [isOk].
    destruct (begin_each AndroidKeymaster rest table1)
      as [[table2 results2]|] eqn:Hrest; [|discriminate].
    intros [= <- <-].
    apply OperationTable_Add_Some in Hadd as (Hsize & Htable & _).
    destruct (IH _ _ _ Hrest) as (Hsize2 & handles & Htable2 & Hlen & Hres).
    split; [congruence|].
    exists (handle :: handles). repeat split.
    + rewrite Htable2, Htable, <- app_assoc. reflexivity.
    + cbn. now rewrite Hlen.
    + intros r [<-|Hr].
      * exists handle. split; [reflexivity|now left].
      * destruct (Hres r Hr) as (handle' & Hop & Hin).
        exists handle'. split; [exact Hop|now right].
Qed.

Lemma run_abort (op : AndroidKeyMintOperation.t) (table : OperationTable) :
  run AndroidKeymaster (abort op) table =
    match OperationTable_Delete (AndroidKeyMintOperation.opHandle_ op) table
    with
    | Some table' => Done table' ScopedAStatus_ok
    | None =>
        Done table (ScopedAStatus_error KM_ERROR_INVALID_OPERATION_HANDLE)
    end.
Proof.
  unfold abort. rewrite run_bind, run_invoke. cbn [AndroidKeymaster].
  cbn [AbortOperationRequest.op_handle].
  now destruct (OperationTable_Delete _ table).
Qed.

Lemma OperationTable_Delete_live handle table :
  In handle (table_ table) ->
  exists table',
    OperationTable_Delete handle table = Some table' /\
    table_size_ table' = table_size_ table /\
    (List.length (table_ table') < List.length (table_ table))%nat.
Proof.
  intros Hin. unfold OperationTable_Delete.
  destruct (in_dec Z.eq_dec handle (table_ table)) as [_|Hno];
    [|contradiction].
  eexists. split; [reflexivity|]. cbn. split; [reflexivity|].
  now apply remove_length_lt.
Qed.

(** As long as the table has room, [begin] calls the engine accepts
    succeed. *)
Lemma begin_each_within_capacity calls : forall table,
  (List.length (table_ table) + List.length calls <= table_size_ table)%nat ->
  (forall c, In c calls ->
     BeginOperationResponse.error
       (engine_reply (BeginOperation (request_of c))) = KM_ERROR_OK) ->
  exists table' results,
    begin_each AndroidKeymaster calls table = Some (table', results).
Proof.
  induction calls as [|c rest IH]; intros table Hroom Hok.
  - cbn. eauto.
  - cbn [begin_each]. rewrite run_begin_call. cbv zeta.
    rewrite (Hok c (or_introl eq_refl)). cbn [is_KM_ERROR_OK].
    cbn [List.length] in Hroom.
    destruct (@OperationTable_Add_room table) as (table1 & handle & Hadd);
      [lia|].
    rewrite Hadd. cbn [isOk].
    apply OperationTable_Add_Some in Hadd as (Hsize & Htable & _).
    destruct (IH table1) as (table2 & results & Hrest).
    + rewrite Hsize, Htable, length_app. cbn. lia.
    + intros c' Hc'. apply Hok. now right.
    + rewrite Hrest. eauto.
Qed.

Lemma begin_each_length calls : forall table table' results,
  begin_each AndroidKeymaster calls table = Some (table', results) ->
  List.length results = List.length calls.
Proof.
  induction calls as [|c rest IH]; intros table table' results.
  - cbn. now intros [= <- <-].
  - cbn [begin_each].
    destruct (run AndroidKeymaster (begin_call c) table)
      as [table1 [status result]|]; [|discriminate].
    destruct (isOk status); [|discriminate].
    destruct (begin_each AndroidKeymaster rest table1)
      as [[table2 results2]|] eqn:Hrest; [|discriminate].
    intros [= <- <-]. cbn. now rewrite (IH _ _ _ Hrest).
Qed.

Lemma OperationTable_Delete_Some handle table table' :
  OperationTable_Delete handle table = Some table' ->
  table_size_ table' = table_size_ table /\
  table_ table' = remove Z.eq_dec handle (table_ table).
Proof.
  unfold OperationTable_Delete.
  destruct (in_dec Z.eq_dec handle (table_ table)); [|discriminate].
  intros [= <-]. cbn. auto.
Qed.

(** C8: the engine of a device is built with an operation table of
    kOperationTableSize = 16 entries.  After 16 [begin] calls that all
    returned ok, none of them aborted, the table holds 16 operations and
    each of the 16 results carries an operation whose handle is in the
    table.  A further [begin] returns an error and leaves the table as it is
    (no entry is evicted), and the error is the resource-exhaustion error
    whenever the engine has no other objection to the request.  Aborting the
    operation of any of the 16 results returns ok and takes its handle out of
    the table, and after that a [begin] the engine has no objection to
    returns ok and hands out an operation that is in the table. *)
Theorem operation_table_capacity calls table results :
  List.length calls = kOperationTableSize ->
  begin_each AndroidKeymaster calls impl_new = Some (table, results) ->
  List.length (table_ table) = 16 /\
  List.length results = 16 /\
  (forall c,
     exists e,
       run AndroidKeymaster (begin_call c) table =
         Done table (ScopedAStatus_error e, call_result c) /\
       (BeginOperationResponse.error
          (engine_reply (BeginOperation (request_of c))) = KM_ERROR_OK ->
        e = KM_ERROR_TOO_MANY_OPERATIONS)) /\
  (forall r,
     In r results ->
     exists op table',
       BeginResult.operation r = Some op /\
       In (AndroidKeyMintOperation.opHandle_ op) (table_ table) /\
       run AndroidKeymaster (abort op) table = Done table' ScopedAStatus_ok /\
       ~ In (AndroidKeyMintOperation.opHandle_ op) (table_ table') /\
       (List.length (table_ table') < 16)%nat /\
       forall c,
         BeginOperationResponse.error
           (engine_reply (BeginOperation (request_of c))) = KM_ERROR_OK ->
         exists table'' result op',
           run AndroidKeymaster (begin_call c) table' =
             Done table'' (ScopedAStatus_ok, result) /\
           BeginResult.operation result = Some op' /\
           In (AndroidKeyMintOperation.opHandle_ op') (table_ table'')).
Proof.
  intros Hlen Hrun.
  pose proof (begin_each_length _ _ Hrun) as Hresults_len.
  apply begin_each_table in Hrun
    as (Hsize & handles & Htable & Hhandles & Hresults).
  cbn in Hsize, Htable. subst handles.
  assert (Hfull : List.length (table_ table) = 16%nat).
  { rewrite Hhandles, Hlen. reflexivity. }
  split; [exact Hfull|]. split; [now rewrite Hresults_len, Hlen|]. split.
  - intros c. rewrite run_begin_call. cbv zeta.
    rewrite OperationTable_Add_full
      by (rewrite Hsize, Hfull; unfold kOperationTableSize; lia).
    destruct (BeginOperationResponse.error
                (engine_reply (BeginOperation (request_of c)))) eqn:Herr;
      cbn [is_KM_ERROR_OK]; eexists; (split; [reflexivity|]);
      intros; congruence.
  - intros r Hr.
    destruct (Hresults r Hr) as (handle & Hop & Hin).
    destruct (@OperationTable_Delete_live handle table Hin)
      as (table' & Hdel & Hsize' & Hless).
    exists (AndroidKeyMintOperation.mk handle), table'.
    cbn [AndroidKeyMintOperation.opHandle_].
    split; [exact Hop|]. split; [exact Hin|]. split; [|split; [|split]].
    + rewrite run_abort. cbn [AndroidKeyMintOperation.opHandle_].
      now rewrite Hdel.
    + apply OperationTable_Delete_Some in Hdel as [_ ->].
      apply remove_In.
    + lia.
    + intros c Hok. rewrite run_begin_call. cbv zeta.
      rewrite Hok. cbn [is_KM_ERROR_OK].
      destruct (@OperationTable_Add_room table') as (table'' & h' & Hadd).
      * rewrite Hsize', Hsize. unfold kOperationTableSize. lia.
      * rewrite Hadd. eexists. eexists.
        exists (AndroidKeyMintOperation.mk h').
        split; [reflexivity|]. split; [reflexivity|].
        cbn [AndroidKeyMintOperation.opHandle_].
        apply OperationTable_Add_Some in Hadd as (_ & -> & _).
        apply in_or_app. right. now left.
Qed.


(* ================================================================ *)
(** ** More on the classification *)
(* ================================================================ *)

Lemma no_invalid_tag_iff (s : AuthorizationSet) :
  no_invalid_tag s = true <->
  forall entry, In entry s -> tag_category (tag entry) <> Some Invalid.
Proof.
  unfold no_invalid_tag. rewrite forallb_forall.
  split; intros Hall entry Hin; specialize (Hall entry Hin);
    unfold is_invalid_tag in *;
    destruct (tag_category (tag entry)) as [[]|]; cbn in *; congruence.
Qed.

(** X1: at security level SOFTWARE the classification returns exactly when
    the hardware-enforced list is empty and no entry of the software-enforced
    list has a tag of the invalid group, whatever the request and the flag
    are.  A non-empty hardware-enforced list fails the first CHECK, also when
    the software-enforced list holds an invalid tag; with an empty
    hardware-enforced list, an invalid tag anywhere in the software-enforced
    list fails the CHECK of the switch. *)
Theorem software_classification_outcome requestParams sw_enforced hw_enforced
    inc :
  ((exists out,
      convertKeyCharacteristics SOFTWARE requestParams sw_enforced hw_enforced
                                inc = Ret out) <->
   hw_enforced = [] /\
   forall entry, In entry sw_enforced ->
     tag_category (tag entry) <> Some Invalid) /\
  (hw_enforced <> [] ->
   convertKeyCharacteristics SOFTWARE requestParams sw_enforced hw_enforced inc =
     CheckFail "Hardware-enforced list is non-empty for pure SW KeyMint") /\
  (hw_enforced = [] ->
   (exists entry, In entry sw_enforced /\
                  tag_category (tag entry) = Some Invalid) ->
   convertKeyCharacteristics SOFTWARE requestParams sw_enforced hw_enforced inc =
     CheckFail "We shouldn't see tag").
Proof.
  rewrite convert_software_level. split; [split|split].
  - intros [out Hout]. split.
    + destruct hw_enforced; [reflexivity|discriminate].
    + apply no_invalid_tag_iff.
      destruct (empty hw_enforced); [|discriminate].
      destruct (no_invalid_tag sw_enforced); [reflexivity|discriminate].
  - intros [-> Hno]. apply no_invalid_tag_iff in Hno. rewrite Hno.
    cbn [empty]. eauto.
  - intros Hhw. apply empty_false_iff in Hhw. now rewrite Hhw.
  - intros -> (entry & Hin & Hbad). cbn [empty].
    destruct (no_invalid_tag sw_enforced) eqn:Hno; [|reflexivity].
    exfalso. exact (proj1 (no_invalid_tag_iff _) Hno entry Hin Hbad).
Qed.

(** X2: at security level SOFTWARE nothing enforced is lost and nothing is
    reordered: the KeyMint-enforced entry holds exactly the entries of the
    software-enforced list whose tag is in the KeyMint-enforced group, in the
    order and with the repetitions of the list, and, when the
    keystore-enforced list is asked for, the KEYSTORE entry holds exactly the
    keystore-enforced ones (the creation time included when requested).  A
    tag the switch has no case for is in no entry. *)
Theorem software_level_keeps_enforced requestParams sw_enforced hw_enforced inc
    out :
  convertKeyCharacteristics SOFTWARE requestParams sw_enforced hw_enforced inc
    = Ret out ->
  domain_authorizations SOFTWARE out = filter to_keyMint sw_enforced /\
  (inc = true ->
   domain_authorizations KEYSTORE out =
     filter (to_keystore requestParams) sw_enforced) /\
  (forall entry, In entry sw_enforced ->
     tag_category (tag entry) = Some HardwareEnforced ->
     In entry (domain_authorizations SOFTWARE out)) /\
  (inc = true -> forall entry, In entry sw_enforced ->
     tag_category (tag entry) = Some KeystoreEnforced ->
     In entry (domain_authorizations KEYSTORE out)) /\
  (forall entry, tag_category (tag entry) = None ->
     forall kc, In kc out -> ~ In entry (authorizations kc)).
Proof.
  intros Hout.
  destruct (software_domain_authorizations _ _ _ _ Hout) as [Hkm Hks].
  split; [exact Hkm|]. split; [now intros ->|]. split; [|split].
  - intros entry Hin Hcat. rewrite Hkm. apply filter_In.
    split; [exact Hin|]. now apply to_keyMint_true.
  - intros -> entry Hin Hcat. rewrite Hks. apply filter_In.
    split; [exact Hin|]. apply to_keystore_true. now left.
  - intros entry Hcat kc Hkc Hentry.
    destruct (@software_output_entry _ _ _ _ _ _ _ Hout Hkc Hentry)
      as [_ [[_ Hk]|[_ [Hk _]]]].
    + apply to_keyMint_true in Hk. congruence.
    + apply to_keystore_true in Hk as [Hk|[Hk _]]; congruence.
Qed.

(** Without the keystore-enforced list the classification returns what it
    returns with it, less the KEYSTORE entry, whatever the request is. *)
Lemma convert_without_keystore level requestParams requestParams'
    sw_enforced hw_enforced out :
  convertKeyCharacteristics level requestParams sw_enforced hw_enforced true
    = Ret out ->
  exists out' tail,
    convertKeyCharacteristics level requestParams' sw_enforced hw_enforced false
      = Ret out' /\
    out = out' ++ tail /\
    (tail = [] \/
     exists keystoreEnforced,
       keystoreEnforced <> [] /\
       tail = [mk_KeyCharacteristics KEYSTORE keystoreEnforced]).
Proof.
  destruct (SecurityLevel_eq_dec level SOFTWARE) as [->|Hlevel].
  - rewrite !convert_software_level.
    destruct (empty hw_enforced); [|discriminate].
    destruct (no_invalid_tag sw_enforced); [|discriminate].
    intros [= <-]. cbn [andb].
    exists (if negb (empty (filter to_keyMint sw_enforced))
            then [mk_KeyCharacteristics SOFTWARE
                    (filter to_keyMint sw_enforced)]
            else []).
    exists (if negb (empty (filter (to_keystore requestParams) sw_enforced))
            then [mk_KeyCharacteristics KEYSTORE
                    (filter (to_keystore requestParams) sw_enforced)]
            else []).
    split; [now rewrite app_nil_r|]. split; [reflexivity|].
    destruct (empty (filter (to_keystore requestParams) sw_enforced)) eqn:He;
      cbn [negb]; [now left|].
    right. eexists. split; [|reflexivity]. now apply empty_false_iff.
  - rewrite !convert_hardware_level by exact Hlevel.
    intros [= <-]. cbn [andb].
    exists [mk_KeyCharacteristics level hw_enforced].
    exists (if negb (empty sw_enforced)
            then [mk_KeyCharacteristics KEYSTORE sw_enforced] else []).
    split; [reflexivity|]. split; [reflexivity|].
    destruct (empty sw_enforced) eqn:He; cbn [negb]; [now left|].
    right. eexists. split; [|reflexivity]. now apply empty_false_iff.
Qed.

Lemma creation_datetime_in_keystore requestParams sw_enforced hw_enforced out
    entry :
  convertKeyCharacteristics SOFTWARE requestParams sw_enforced hw_enforced true
    = Ret out ->
  In entry sw_enforced ->
  tag entry = KM_TAG_CREATION_DATETIME ->
  (In entry (domain_authorizations KEYSTORE out) <->
   Contains requestParams KM_TAG_CREATION_DATETIME = true).
Proof.
  intros Hout Hin Htag.
  destruct (software_domain_authorizations _ _ _ _ Hout) as [_ Hks].
  rewrite Hks, filter_In. unfold to_keystore. rewrite Htag. cbn. tauto.
Qed.

(* ================================================================ *)
(** ** More on the device calls *)
(* ================================================================ *)

Lemma kmError2ScopedAStatus_ok e :
  kmError2ScopedAStatus e = ScopedAStatus_ok -> e = KM_ERROR_OK.
Proof. destruct e; cbn; congruence. Qed.

(** What a creation call that returned ok has done. *)
Lemma run_generateKey_ok {St : Type} (h : Handler St) st st' st'' response
    keyParams attestationKey creationResult cr :
  h _ (GenerateKey (generateKey_request keyParams attestationKey)) st
    = (st', response) ->
  run h (generateKey keyParams attestationKey creationResult) st
    = Done st'' (ScopedAStatus_ok, cr) ->
  GenerateKeyResponse.error response = KM_ERROR_OK /\
  convertKeyCharacteristics (securityLevel_ this) (KmParamSet keyParams)
    (GenerateKeyResponse.unenforced response)
    (GenerateKeyResponse.enforced response) true
    = Ret (KeyCreationResult.keyCharacteristics cr) /\
  KeyCreationResult.keyBlob cr =
    kmBlob2vector (GenerateKeyResponse.key_blob response) /\
  KeyCreationResult.certificateChain cr =
    convertCertificateChain (GenerateKeyResponse.certificate_chain response).
Proof.
  intros Hh. erewrite run_generateKey by exact Hh.
  destruct (is_KM_ERROR_OK (GenerateKeyResponse.error response)) eqn:Herr.
  - apply is_KM_ERROR_OK_true in Herr.
    destruct (convertKeyCharacteristics _ _ _ _ _); try discriminate.
    intros [= _ <-]. cbn. auto.
  - intros [= _ Hstatus _]. apply kmError2ScopedAStatus_ok in Hstatus.
    rewrite Hstatus in Herr. discriminate.
Qed.

Lemma run_importKey_ok {St : Type} (h : Handler St) st st' st'' response
    keyParams keyFormat keyData attestationKey creationResult cr :
  h _ (ImportKey (importKey_request keyParams keyFormat keyData
                                    attestationKey)) st
    = (st', response) ->
  run h (importKey keyParams keyFormat keyData attestationKey creationResult) st
    = Done st'' (ScopedAStatus_ok, cr) ->
  ImportKeyResponse.error response = KM_ERROR_OK /\
  convertKeyCharacteristics (securityLevel_ this) (KmParamSet keyParams)
    (ImportKeyResponse.unenforced response)
    (ImportKeyResponse.enforced response) true
    = Ret (KeyCreationResult.keyCharacteristics cr) /\
  KeyCreationResult.keyBlob cr =
    kmBlob2vector (ImportKeyResponse.key_blob response) /\
  KeyCreationResult.certificateChain cr =
    convertCertificateChain (ImportKeyResponse.certificate_chain response).
Proof.
  intros Hh. erewrite run_importKey by exact Hh.
  destruct (is_KM_ERROR_OK (ImportKeyResponse.error response)) eqn:Herr.
  - apply is_KM_ERROR_OK_true in Herr.
    destruct (convertKeyCharacteristics _ _ _ _ _); try discriminate.
    intros [= _ <-]. cbn. auto.
  - intros [= _ Hstatus _]. apply kmError2ScopedAStatus_ok in Hstatus.
    rewrite Hstatus in Herr. discriminate.
Qed.

Lemma run_importWrappedKey_ok {St : Type} (h : Handler St) st st' st'' response
    wrappedKeyData wrappingKeyBlob maskingKey unwrappingParams
    passwordSid biometricSid creationResult cr :
  h _ (ImportWrappedKey
         (importWrappedKey_request wrappedKeyData wrappingKeyBlob maskingKey
            unwrappingParams passwordSid biometricSid)) st
    = (st', response) ->
  run h (importWrappedKey wrappedKeyData wrappingKeyBlob maskingKey
           unwrappingParams passwordSid biometricSid creationResult) st
    = Done st'' (ScopedAStatus_ok, cr) ->
  ImportWrappedKeyResponse.error response = KM_ERROR_OK /\
  convertKeyCharacteristics (securityLevel_ this) (KmParamSet unwrappingParams)
    (ImportWrappedKeyResponse.unenforced response)
    (ImportWrappedKeyResponse.enforced response) true
    = Ret (KeyCreationResult.keyCharacteristics cr) /\
  KeyCreationResult.keyBlob cr =
    kmBlob2vector (ImportWrappedKeyResponse.key_blob response) /\
  KeyCreationResult.certificateChain cr =
    convertCertificateChain
      (ImportWrappedKeyResponse.certificate_chain response).
Proof.
  intros Hh. erewrite run_importWrappedKey by exact Hh.
  destruct (is_KM_ERROR_OK (ImportWrappedKeyResponse.error response)) eqn:Herr.
  - apply is_KM_ERROR_OK_true in Herr.
    destruct (convertKeyCharacteristics _ _ _ _ _); try discriminate.
    intros [= _ <-]. cbn. auto.
  - intros [= _ Hstatus _]. apply kmError2ScopedAStatus_ok in Hstatus.
    rewrite Hstatus in Herr. discriminate.
Qed.

Lemma run_getKeyCharacteristics_ok {St : Type} (h : Handler St) st st' st''
    response keyBlob appId appData keyCharacteristics out :
  h _ (GetKeyCharacteristics
         (getKeyCharacteristics_request keyBlob appId appData)) st
    = (st', response) ->
  run h (getKeyCharacteristics keyBlob appId appData keyCharacteristics) st
    = Done st'' (ScopedAStatus_ok, out) ->
  GetKeyCharacteristicsResponse.error response = KM_ERROR_OK /\
  convertKeyCharacteristics (securityLevel_ this) []
    (GetKeyCharacteristicsResponse.unenforced response)
    (GetKeyCharacteristicsResponse.enforced response) false = Ret out.
Proof.
  intros Hh. erewrite run_getKeyCharacteristics by exact Hh.
  destruct (is_KM_ERROR_OK (GetKeyCharacteristicsResponse.error response))
    eqn:Herr.
  - apply is_KM_ERROR_OK_true in Herr.
    destruct (convertKeyCharacteristics _ _ _ _ _); try discriminate.
    intros [= _ <-]. auto.
  - intros [= _ Hstatus _]. apply kmError2ScopedAStatus_ok in Hstatus.
    rewrite Hstatus in Herr. discriminate.
Qed.

(** X3: what getKeyCharacteristics returns for a key is what generateKey
    returned for it, less the KEYSTORE entry.  When generateKey returned ok,
    and the engine later answers a lookup without error and with the same
    enforced and unenforced lists, the lookup returns ok (no CHECK can fail),
    and the characteristics of the creation are those of the lookup followed
    by nothing or by one non-empty KEYSTORE entry; appId, appData and the
    value of the out parameter play no part. *)
Theorem lookup_matches_creation (St : Type) (h : Handler St)
    (st1 st1' st2 st2' : St) keyParams attestationKey creationResult response cr
    keyBlob appId appData keyCharacteristics response' :
  h _ (GenerateKey (generateKey_request keyParams attestationKey)) st1
    = (st1', response) ->
  run h (generateKey keyParams attestationKey creationResult) st1
    = Done st1' (ScopedAStatus_ok, cr) ->
  h _ (GetKeyCharacteristics
         (getKeyCharacteristics_request keyBlob appId appData)) st2
    = (st2', response') ->
  GetKeyCharacteristicsResponse.error response' = KM_ERROR_OK ->
  GetKeyCharacteristicsResponse.enforced response' =
    GenerateKeyResponse.enforced response ->
  GetKeyCharacteristicsResponse.unenforced response' =
    GenerateKeyResponse.unenforced response ->
  exists out tail,
    run h (getKeyCharacteristics keyBlob appId appData keyCharacteristics) st2
      = Done st2' (ScopedAStatus_ok, out) /\
    KeyCreationResult.keyCharacteristics cr = out ++ tail /\
    (tail = [] \/
     exists keystoreEnforced,
       keystoreEnforced <> [] /\
       tail = [mk_KeyCharacteristics KEYSTORE keystoreEnforced]).
Proof.
  intros Hh Hrun Hh' Herr Henf Hunenf.
  pose proof Hrun as Hok. eapply run_generateKey_ok in Hok; [|exact Hh].
  destruct Hok as (_ & Hconv & _ & _).
  destruct (@convert_without_keystore _ _ [] _ _ _ Hconv)
    as (out & tail & Hconv' & Happ & Htail).
  exists out, tail. split; [|split; assumption].
  erewrite run_getKeyCharacteristics by exact Hh'.
  rewrite Herr, Henf, Hunenf. cbn [is_KM_ERROR_OK]. now rewrite Hconv'.
Qed.

(** X4: through the creation calls of a software device the creation time
    is echoed exactly when it was asked for.  When generateKey, importKey or
    importWrappedKey returns ok, an entry with the tag CREATION_DATETIME in
    the engine's unenforced list is in the KEYSTORE entry of the returned
    characteristics if and only if the parameters of the call contain a
    CREATION_DATETIME tag; getKeyCharacteristics never returns one. *)
Theorem creation_datetime_echoed_iff_requested (St : Type) (h : Handler St)
    (st st' st'' : St) :
  securityLevel_ this = SOFTWARE ->
  (forall keyParams attestationKey creationResult response cr entry,
     h _ (GenerateKey (generateKey_request keyParams attestationKey)) st
       = (st', response) ->
     run h (generateKey keyParams attestationKey creationResult) st
       = Done st'' (ScopedAStatus_ok, cr) ->
     In entry (GenerateKeyResponse.unenforced response) ->
     tag entry = KM_TAG_CREATION_DATETIME ->
     (In entry (domain_authorizations KEYSTORE
                  (KeyCreationResult.keyCharacteristics cr)) <->
      Contains keyParams KM_TAG_CREATION_DATETIME = true)) /\
  (forall keyParams keyFormat keyData attestationKey creationResult response cr
          entry,
     h _ (ImportKey (importKey_request keyParams keyFormat keyData
                                       attestationKey)) st
       = (st', response) ->
     run h (importKey keyParams keyFormat keyData attestationKey
                      creationResult) st
       = Done st'' (ScopedAStatus_ok, cr) ->
     In entry (ImportKeyResponse.unenforced response) ->
     tag entry = KM_TAG_CREATION_DATETIME ->
     (In entry (domain_authorizations KEYSTORE
                  (KeyCreationResult.keyCharacteristics cr)) <->
      Contains keyParams KM_TAG_CREATION_DATETIME = true)) /\
  (forall wrappedKeyData wrappingKeyBlob maskingKey unwrappingParams
          passwordSid biometricSid creationResult response cr entry,
     h _ (ImportWrappedKey
            (importWrappedKey_request wrappedKeyData wrappingKeyBlob
               maskingKey unwrappingParams passwordSid biometricSid)) st
       = (st', response) ->
     run h (importWrappedKey wrappedKeyData wrappingKeyBlob maskingKey
              unwrappingParams passwordSid biometricSid creationResult) st
       = Done st'' (ScopedAStatus_ok, cr) ->
     In entry (ImportWrappedKeyResponse.unenforced response) ->
     tag entry = KM_TAG_CREATION_DATETIME ->
     (In entry (domain_authorizations KEYSTORE
                  (KeyCreationResult.keyCharacteristics cr)) <->
      Contains unwrappingParams KM_TAG_CREATION_DATETIME = true)) /\
  (forall keyBlob appId appData keyCharacteristics response out kc entry,
     h _ (GetKeyCharacteristics
            (getKeyCharacteristics_request keyBlob appId appData)) st
       = (st', response) ->
     run h (getKeyCharacteristics keyBlob appId appData keyCharacteristics) st
       = Done st'' (ScopedAStatus_ok, out) ->
     In kc out -> In entry (authorizations kc) ->
     tag entry <> KM_TAG_CREATION_DATETIME).
Proof.
  intros Hlevel. repeat apply conj.
  - intros keyParams attestationKey creationResult response cr entry
           Hh Hrun Hin Htag.
    eapply run_generateKey_ok in Hrun; [|exact Hh].
    destruct Hrun as (_ & Hconv & _). rewrite Hlevel in Hconv.
    exact (creation_datetime_in_keystore _ _ _ _ Hconv Hin Htag).
  - intros keyParams keyFormat keyData attestationKey creationResult response
           cr entry Hh Hrun Hin Htag.
    eapply run_importKey_ok in Hrun; [|exact Hh].
    destruct Hrun as (_ & Hconv & _). rewrite Hlevel in Hconv.
    exact (creation_datetime_in_keystore _ _ _ _ Hconv Hin Htag).
  - intros wrappedKeyData wrappingKeyBlob maskingKey unwrappingParams
           passwordSid biometricSid creationResult response cr entry
           Hh Hrun Hin Htag.
    eapply run_importWrappedKey_ok in Hrun; [|exact Hh].
    destruct Hrun as (_ & Hconv & _). rewrite Hlevel in Hconv.
    exact (creation_datetime_in_keystore _ _ _ _ Hconv Hin Htag).
  - intros keyBlob appId appData keyCharacteristics response out kc entry
           Hh Hrun Hkc Hentry Htag.
    eapply run_getKeyCharacteristics_ok in Hrun; [|exact Hh].
    destruct Hrun as (_ & Hconv). rewrite Hlevel in Hconv.
    destruct (@software_output_entry _ _ _ _ _ _ _ Hconv Hkc Hentry)
      as [_ [[_ Hk]|[_ [_ Hinc]]]]; [|discriminate].
    unfold to_keyMint in Hk. rewrite Htag in Hk. discriminate.
Qed.

Lemma convert_Ret_levels level requestParams sw_enforced hw_enforced inc out :
  convertKeyCharacteristics level requestParams sw_enforced hw_enforced inc
    = Ret out ->
  (List.length out <= 2)%nat /\
  forall kc, In kc out ->
    securityLevel kc = level \/ (inc = true /\ securityLevel kc = KEYSTORE).
Proof.
  intros Hout. apply convert_Ret_shape in Hout. rewrite Hout. split.
  - rewrite length_app.
    destruct (_ || _); destruct (inc && _); cbn; lia.
  - intros kc Hkc. apply in_app_or in Hkc as [Hkc|Hkc].
    + destruct (_ || _) in Hkc; [|contradiction].
      destruct Hkc as [<-|[]]. now left.
    + destruct inc; cbn [andb] in Hkc; [|contradiction].
      destruct (negb _) in Hkc; [|contradiction].
      destruct Hkc as [<-|[]]. right. auto.
Qed.

(** X5: the characteristics a device returns are labelled with the level it
    reports.  getHardwareInfo returns ok with the security level the device
    was created with, whatever [info] held; every entry of the
    characteristics that generateKey, importKey or importWrappedKey returns
    carries that level or KEYSTORE, and there are at most two entries; every
    entry getKeyCharacteristics returns carries that level. *)
Theorem characteristics_carry_reported_level (St : Type) (h : Handler St)
    (st st' : St) info0 :
  exists info,
    getHardwareInfo info0 = Ret (ScopedAStatus_ok, info) /\
    KeyMintHardwareInfo.securityLevel info = securityLevel_ this /\
    (forall keyParams attestationKey creationResult cr,
       run h (generateKey keyParams attestationKey creationResult) st
         = Done st' (ScopedAStatus_ok, cr) ->
       (List.length (KeyCreationResult.keyCharacteristics cr) <= 2)%nat /\
       forall kc, In kc (KeyCreationResult.keyCharacteristics cr) ->
         securityLevel kc = KeyMintHardwareInfo.securityLevel info \/
         securityLevel kc = KEYSTORE) /\
    (forall keyParams keyFormat keyData attestationKey creationResult cr,
       run h (importKey keyParams keyFormat keyData attestationKey
                        creationResult) st
         = Done st' (ScopedAStatus_ok, cr) ->
       (List.length (KeyCreationResult.keyCharacteristics cr) <= 2)%nat /\
       forall kc, In kc (KeyCreationResult.keyCharacteristics cr) ->
         securityLevel kc = KeyMintHardwareInfo.securityLevel info \/
         securityLevel kc = KEYSTORE) /\
    (forall wrappedKeyData wrappingKeyBlob maskingKey unwrappingParams
            passwordSid biometricSid creationResult cr,
       run h (importWrappedKey wrappedKeyData wrappingKeyBlob maskingKey
                unwrappingParams passwordSid biometricSid creationResult) st
         = Done st' (ScopedAStatus_ok, cr) ->
       (List.length (KeyCreationResult.keyCharacteristics cr) <= 2)%nat /\
       forall kc, In kc (KeyCreationResult.keyCharacteristics cr) ->
         securityLevel kc = KeyMintHardwareInfo.securityLevel info \/
         securityLevel kc = KEYSTORE) /\
    (forall keyBlob appId appData keyCharacteristics out,
       run h (getKeyCharacteristics keyBlob appId appData keyCharacteristics)
           st
         = Done st' (ScopedAStatus_ok, out) ->
       forall kc, In kc out ->
         securityLevel kc = KeyMintHardwareInfo.securityLevel info).
Proof.
  eexists. split; [reflexivity|]. split; [reflexivity|].
  cbn [KeyMintHardwareInfo.securityLevel]. repeat apply conj.
  - intros keyParams attestationKey creationResult cr Hrun.
    destruct (h _ (GenerateKey (generateKey_request keyParams attestationKey))
                st) as [st1 response] eqn:Hh.
    eapply run_generateKey_ok in Hrun; [|exact Hh].
    destruct Hrun as (_ & Hconv & _).
    apply convert_Ret_levels in Hconv as [Hlen Hlevels].
    split; [exact Hlen|]. intros kc Hkc.
    destruct (Hlevels kc Hkc) as [Hl|[_ Hl]]; auto.
  - intros keyParams keyFormat keyData attestationKey creationResult cr Hrun.
    destruct (h _ (ImportKey (importKey_request keyParams keyFormat keyData
                                                attestationKey)) st)
      as [st1 response] eqn:Hh.
    eapply run_importKey_ok in Hrun; [|exact Hh].
    destruct Hrun as (_ & Hconv & _).
    apply convert_Ret_levels in Hconv as [Hlen Hlevels].
    split; [exact Hlen|]. intros kc Hkc.
    destruct (Hlevels kc Hkc) as [Hl|[_ Hl]]; auto.
  - intros wrappedKeyData wrappingKeyBlob maskingKey unwrappingParams
           passwordSid biometricSid creationResult cr Hrun.
    destruct (h _ (ImportWrappedKey
                     (importWrappedKey_request wrappedKeyData wrappingKeyBlob
                        maskingKey unwrappingParams passwordSid biometricSid))
                st) as [st1 response] eqn:Hh.
    eapply run_importWrappedKey_ok in Hrun; [|exact Hh].
    destruct Hrun as (_ & Hconv & _).
    apply convert_Ret_levels in Hconv as [Hlen Hlevels].
    split; [exact Hlen|]. intros kc Hkc.
    destruct (Hlevels kc Hkc) as [Hl|[_ Hl]]; auto.
  - intros keyBlob appId appData keyCharacteristics out Hrun kc Hkc.
    destruct (h _ (GetKeyCharacteristics
                     (getKeyCharacteristics_request keyBlob appId appData)) st)
      as [st1 response] eqn:Hh.
    eapply run_getKeyCharacteristics_ok in Hrun; [|exact Hh].
    destruct Hrun as (_ & Hconv).
    apply convert_Ret_levels in Hconv as [_ Hlevels].
    destruct (Hlevels kc Hkc) as [Hl|[Hinc _]]; [exact Hl|discriminate].
Qed.

(** X6: the certificate chain goes through unchanged.
    convertCertificateChain yields one certificate per blob of the engine's
    chain, in the same order, each holding exactly the bytes of its blob (an
    empty chain gives an empty list); so the chain a creation call returns
    with ok is, byte for byte, the chain of the engine's response. *)
Theorem certificate_chain_round_trip :
  (forall chain,
     map Certificate.encodedCertificate (convertCertificateChain chain) = chain /\
     List.length (convertCertificateChain chain) = List.length chain /\
     forall i,
       nth_error (convertCertificateChain chain) i =
       option_map convertCertificate (nth_error chain i)) /\
  (forall (St : Type) (h : Handler St) (st st' st'' : St),
     (forall keyParams attestationKey creationResult response cr,
        h _ (GenerateKey (generateKey_request keyParams attestationKey)) st
          = (st', response) ->
        run h (generateKey keyParams attestationKey creationResult) st
          = Done st'' (ScopedAStatus_ok, cr) ->
        map Certificate.encodedCertificate
            (KeyCreationResult.certificateChain cr) =
          GenerateKeyResponse.certificate_chain response) /\
     (forall keyParams keyFormat keyData attestationKey creationResult
             response cr,
        h _ (ImportKey (importKey_request keyParams keyFormat keyData
                                          attestationKey)) st
          = (st', response) ->
        run h (importKey keyParams keyFormat keyData attestationKey
                         creationResult) st
          = Done st'' (ScopedAStatus_ok, cr) ->
        map Certificate.encodedCertificate
            (KeyCreationResult.certificateChain cr) =
          ImportKeyResponse.certificate_chain response) /\
     (forall wrappedKeyData wrappingKeyBlob maskingKey unwrappingParams
             passwordSid biometricSid creationResult response cr,
        h _ (ImportWrappedKey
               (importWrappedKey_request wrappedKeyData wrappingKeyBlob
                  maskingKey unwrappingParams passwordSid biometricSid)) st
          = (st', response) ->
        run h (importWrappedKey wrappedKeyData wrappingKeyBlob maskingKey
                 unwrappingParams passwordSid biometricSid creationResult) st
          = Done st'' (ScopedAStatus_ok, cr) ->
        map Certificate.encodedCertificate
            (KeyCreationResult.certificateChain cr) =
          ImportWrappedKeyResponse.certificate_chain response)).
Proof.
  assert (Hmap : forall chain,
            map Certificate.encodedCertificate (convertCertificateChain chain)
              = chain).
  { intros chain. unfold convertCertificateChain. rewrite map_map.
    cbn. apply map_id. }
  split.
  - intros chain. split; [apply Hmap|]. unfold convertCertificateChain.
    split; [apply length_map|]. intros i. apply nth_error_map.
  - intros St h st st' st''. repeat apply conj.
    + intros keyParams attestationKey creationResult response cr Hh Hrun.
      eapply run_generateKey_ok in Hrun; [|exact Hh].
      destruct Hrun as (_ & _ & _ & ->). apply Hmap.
    + intros keyParams keyFormat keyData attestationKey creationResult
             response cr Hh Hrun.
      eapply run_importKey_ok in Hrun; [|exact Hh].
      destruct Hrun as (_ & _ & _ & ->). apply Hmap.
    + intros wrappedKeyData wrappingKeyBlob maskingKey unwrappingParams
             passwordSid biometricSid creationResult response cr Hh Hrun.
      eapply run_importWrappedKey_ok in Hrun; [|exact Hh].
      destruct Hrun as (_ & _ & _ & ->). apply Hmap.
Qed.

Lemma engine_calls_bind {St A B : Type} (h : Handler St) (m : KM A)
    (f : A -> KM B) : forall st,
  engine_calls h (bind m f) st =
    (engine_calls h m st +
     match run h m st with
     | Done st' a => engine_calls h (f a) st'
     | Aborted _ => 0
     end)%nat.
Proof.
  induction m as [a|msg|R call k IH]; intros st; cbn; try reflexivity.
  destruct (h R call st) as [st' r]. now rewrite IH.
Qed.

Lemma engine_calls_invoke {St R : Type} (h : Handler St) (call : EngineCall R)
    st :
  engine_calls h (invoke call) st = 1.
Proof. cbn. now destruct (h R call st). Qed.

Lemma engine_calls_classification {St : Type} (h : Handler St) st
    level requestParams sw_enforced hw_enforced inc :
  engine_calls h (convertKeyCharacteristics level requestParams sw_enforced
                                            hw_enforced inc) st = 0.
Proof.
  destruct (SecurityLevel_eq_dec level SOFTWARE) as [->|Hlevel].
  - rewrite convert_software_level.
    now destruct (empty hw_enforced), (no_invalid_tag sw_enforced).
  - now rewrite convert_hardware_level by exact Hlevel.
Qed.

(** After the one engine call of a method, what is left makes none. *)
Lemma engine_calls_after_invoke {St R A : Type} (h : Handler St)
    (call : EngineCall R) (f : R -> KM A) st :
  (forall r st', engine_calls h (f r) st' = 0) ->
  engine_calls h (bind (invoke call) f) st = 1.
Proof.
  intros Hrest. rewrite engine_calls_bind, engine_calls_invoke, run_invoke.
  now rewrite Hrest.
Qed.

Lemma engine_calls_classify_then {St A : Type} (h : Handler St) st
    level requestParams sw_enforced hw_enforced inc
    (f : list KeyCharacteristics -> A) :
  engine_calls h
    (bind (convertKeyCharacteristics level requestParams sw_enforced
                                     hw_enforced inc)
          (fun out => Ret (f out))) st = 0.
Proof.
  rewrite engine_calls_bind, engine_calls_classification, run_classification.
  now destruct (convertKeyCharacteristics _ _ _ _ _).
Qed.

(** X7: every call that goes to the engine goes there exactly once,
    whatever the engine answers: generateKey, importKey, importWrappedKey,
    upgradeKey, begin and getKeyCharacteristics each make one engine call, on
    the error path as on the success path, and never a second one (no
    retry, and the classification makes none). *)
Theorem one_engine_call_per_method (St : Type) (h : Handler St) (st : St) :
  (forall keyParams attestationKey creationResult,
     engine_calls h (generateKey keyParams attestationKey creationResult) st
       = 1) /\
  (forall keyParams keyFormat keyData attestationKey creationResult,
     engine_calls h (importKey keyParams keyFormat keyData attestationKey
                               creationResult) st = 1) /\
  (forall wrappedKeyData wrappingKeyBlob maskingKey unwrappingParams
          passwordSid biometricSid creationResult,
     engine_calls h (importWrappedKey wrappedKeyData wrappingKeyBlob maskingKey
                       unwrappingParams passwordSid biometricSid
                       creationResult) st = 1) /\
  (forall keyBlobToUpgrade upgradeParams keyBlob,
     engine_calls h (upgradeKey keyBlobToUpgrade upgradeParams keyBlob) st = 1) /\
  (forall purpose keyBlob params authToken result,
     engine_calls h (begin purpose keyBlob params authToken result) st = 1) /\
  (forall keyBlob appId appData keyCharacteristics,
     engine_calls h (getKeyCharacteristics keyBlob appId appData
                                           keyCharacteristics) st = 1).
Proof.
  repeat apply conj; intros;
    [unfold generateKey | unfold importKey | unfold importWrappedKey
    | unfold upgradeKey | unfold begin | unfold getKeyCharacteristics];
    apply engine_calls_after_invoke; intros r st';
    destruct (negb _); try reflexivity;
    apply engine_calls_classify_then.
Qed.

Lemma classification_mismatch requestParams sw_enforced hw_enforced inc :
  hw_enforced <> [] \/
  (exists entry, In entry sw_enforced /\
                 tag_category (tag entry) = Some Invalid) ->
  exists msg,
    convertKeyCharacteristics SOFTWARE requestParams sw_enforced hw_enforced inc
      = CheckFail msg.
Proof.
  rewrite convert_software_level. intros Hbad.
  destruct (empty hw_enforced) eqn:Hhw; [|eauto].
  destruct (no_invalid_tag sw_enforced) eqn:Hno; [|eauto].
  exfalso. destruct Hbad as [Hne|(entry & Hin & Hcat)].
  - apply empty_false_iff in Hne. congruence.
  - exact (proj1 (no_invalid_tag_iff _) Hno entry Hin Hcat).
Qed.

(** X8: on a software device an engine answer that breaks the contract of
    the classification ends the process after the engine has done its work.
    When the engine answers generateKey, importKey, importWrappedKey or
    getKeyCharacteristics without error but with a non-empty enforced list,
    or with an unenforced list holding a tag of the invalid group, the call
    does not return: a CHECK fails, and no status reaches the caller. *)
Theorem engine_mismatch_aborts (St : Type) (h : Handler St) (st st' : St) :
  securityLevel_ this = SOFTWARE ->
  (forall keyParams attestationKey creationResult response,
     h _ (GenerateKey (generateKey_request keyParams attestationKey)) st
       = (st', response) ->
     GenerateKeyResponse.error response = KM_ERROR_OK ->
     GenerateKeyResponse.enforced response <> [] \/
     (exists entry, In entry (GenerateKeyResponse.unenforced response) /\
                    tag_category (tag entry) = Some Invalid) ->
     exists msg,
       run h (generateKey keyParams attestationKey creationResult) st
         = Aborted msg) /\
  (forall keyParams keyFormat keyData attestationKey creationResult response,
     h _ (ImportKey (importKey_request keyParams keyFormat keyData
                                       attestationKey)) st
       = (st', response) ->
     ImportKeyResponse.error response = KM_ERROR_OK ->
     ImportKeyResponse.enforced response <> [] \/
     (exists entry, In entry (ImportKeyResponse.unenforced response) /\
                    tag_category (tag entry) = Some Invalid) ->
     exists msg,
       run h (importKey keyParams keyFormat keyData attestationKey
                        creationResult) st = Aborted msg) /\
  (forall wrappedKeyData wrappingKeyBlob maskingKey unwrappingParams
          passwordSid biometricSid creationResult response,
     h _ (ImportWrappedKey
            (importWrappedKey_request wrappedKeyData wrappingKeyBlob
               maskingKey unwrappingParams passwordSid biometricSid)) st
       = (st', response) ->
     ImportWrappedKeyResponse.error response = KM_ERROR_OK ->
     ImportWrappedKeyResponse.enforced response <> [] \/
     (exists entry, In entry (ImportWrappedKeyResponse.unenforced response) /\
                    tag_category (tag entry) = Some Invalid) ->
     exists msg,
       run h (importWrappedKey wrappedKeyData wrappingKeyBlob maskingKey
                unwrappingParams passwordSid biometricSid creationResult) st
         = Aborted msg) /\
  (forall keyBlob appId appData keyCharacteristics response,
     h _ (GetKeyCharacteristics
            (getKeyCharacteristics_request keyBlob appId appData)) st
       = (st', response) ->
     GetKeyCharacteristicsResponse.error response = KM_ERROR_OK ->
     GetKeyCharacteristicsResponse.enforced response <> [] \/
     (exists entry,
        In entry (GetKeyCharacteristicsResponse.unenforced response) /\
        tag_category (tag entry) = Some Invalid) ->
     exists msg,
       run h (getKeyCharacteristics keyBlob appId appData keyCharacteristics)
           st = Aborted msg).
Proof.
  intros Hlevel. repeat apply conj.
  - intros keyParams attestationKey creationResult response Hh Herr Hbad.
    erewrite run_generateKey by exact Hh. rewrite Herr, Hlevel.
    cbn [is_KM_ERROR_OK].
    destruct (@classification_mismatch (KmParamSet keyParams) _ _ true Hbad)
      as [msg ->]. eauto.
  - intros keyParams keyFormat keyData attestationKey creationResult response
           Hh Herr Hbad.
    erewrite run_importKey by exact Hh. rewrite Herr, Hlevel.
    cbn [is_KM_ERROR_OK].
    destruct (@classification_mismatch (KmParamSet keyParams) _ _ true Hbad)
      as [msg ->]. eauto.
  - intros wrappedKeyData wrappingKeyBlob maskingKey unwrappingParams
           passwordSid biometricSid creationResult response Hh Herr Hbad.
    erewrite run_importWrappedKey by exact Hh. rewrite Herr, Hlevel.
    cbn [is_KM_ERROR_OK].
    destruct (@classification_mismatch (KmParamSet unwrappingParams) _ _ true
                Hbad)
      as [msg ->]. eauto.
  - intros keyBlob appId appData keyCharacteristics response Hh Herr Hbad.
    erewrite run_getKeyCharacteristics by exact Hh. rewrite Herr, Hlevel.
    cbn [is_KM_ERROR_OK].
    destruct (@classification_mismatch [] _ _ false Hbad) as [msg ->]. eauto.
Qed.

Lemma run_begin {St : Type} (h : Handler St) st st' response
    purpose keyBlob params authToken result :
  h _ (BeginOperation (begin_request purpose keyBlob params authToken)) st
    = (st', response) ->
  run h (begin purpose keyBlob params authToken result) st =
    if is_KM_ERROR_OK (BeginOperationResponse.error response) then
      Done st'
        (ScopedAStatus_ok,
         BeginResult.mk
           (BeginOperationResponse.output_params response)
           (to_int64 (BeginOperationResponse.op_handle response))
           (Some (AndroidKeyMintOperation.mk
                    (BeginOperationResponse.op_handle response))))
    else
      Done st' (kmError2ScopedAStatus (BeginOperationResponse.error response),
                result).
Proof.
  intros Hh. unfold begin. rewrite run_bind, run_invoke.
  fold (begin_request purpose keyBlob params authToken). rewrite Hh.
  cbn [fst snd].
  destruct (is_KM_ERROR_OK (BeginOperationResponse.error response));
    cbn [negb run]; [|reflexivity].
  now rewrite kmParamSet2Aidl_id.
Qed.

(** X9: a CHECK can only fail on a software device, and only in a call that
    classifies.  On a device of any other level generateKey, importKey,
    importWrappedKey and getKeyCharacteristics return a status against every
    engine; upgradeKey, begin and addRngEntropy return a status on every
    device. *)
Theorem calls_that_always_return (St : Type) (h : Handler St) (st : St) :
  (securityLevel_ this <> SOFTWARE ->
   (forall keyParams attestationKey creationResult,
      exists st' result,
        run h (generateKey keyParams attestationKey creationResult) st
          = Done st' result) /\
   (forall keyParams keyFormat keyData attestationKey creationResult,
      exists st' result,
        run h (importKey keyParams keyFormat keyData attestationKey
                         creationResult) st = Done st' result) /\
   (forall wrappedKeyData wrappingKeyBlob maskingKey unwrappingParams
           passwordSid biometricSid creationResult,
      exists st' result,
        run h (importWrappedKey wrappedKeyData wrappingKeyBlob maskingKey
                 unwrappingParams passwordSid biometricSid creationResult) st
          = Done st' result) /\
   (forall keyBlob appId appData keyCharacteristics,
      exists st' result,
        run h (getKeyCharacteristics keyBlob appId appData keyCharacteristics)
            st = Done st' result)) /\
  (forall keyBlobToUpgrade upgradeParams keyBlob,
     exists st' result,
       run h (upgradeKey keyBlobToUpgrade upgradeParams keyBlob) st
         = Done st' result) /\
  (forall purpose keyBlob params authToken result0,
     exists st' result,
       run h (begin purpose keyBlob params authToken result0) st
         = Done st' result) /\
  (forall data,
     exists st' status, run h (addRngEntropy data) st = Done st' status).
Proof.
  split; [intros Hlevel; repeat apply conj|repeat apply conj].
  - intros keyParams attestationKey creationResult.
    destruct (h _ (GenerateKey (generateKey_request keyParams attestationKey))
                st) as [st' response] eqn:Hh.
    erewrite run_generateKey by exact Hh.
    rewrite convert_hardware_level by exact Hlevel.
    destruct (is_KM_ERROR_OK _); eauto.
  - intros keyParams keyFormat keyData attestationKey creationResult.
    destruct (h _ (ImportKey (importKey_request keyParams keyFormat keyData
                                                attestationKey)) st)
      as [st' response] eqn:Hh.
    erewrite run_importKey by exact Hh.
    rewrite convert_hardware_level by exact Hlevel.
    destruct (is_KM_ERROR_OK _); eauto.
  - intros wrappedKeyData wrappingKeyBlob maskingKey unwrappingParams
           passwordSid biometricSid creationResult.
    destruct (h _ (ImportWrappedKey
                     (importWrappedKey_request wrappedKeyData wrappingKeyBlob
                        maskingKey unwrappingParams passwordSid biometricSid))
                st) as [st' response] eqn:Hh.
    erewrite run_importWrappedKey by exact Hh.
    rewrite convert_hardware_level by exact Hlevel.
    destruct (is_KM_ERROR_OK _); eauto.
  - intros keyBlob appId appData keyCharacteristics.
    destruct (h _ (GetKeyCharacteristics
                     (getKeyCharacteristics_request keyBlob appId appData)) st)
      as [st' response] eqn:Hh.
    erewrite run_getKeyCharacteristics by exact Hh.
    rewrite convert_hardware_level by exact Hlevel.
    destruct (is_KM_ERROR_OK _); eauto.
  - intros keyBlobToUpgrade upgradeParams keyBlob.
    destruct (h _ (UpgradeKey (upgradeKey_request keyBlobToUpgrade
                                                  upgradeParams)) st)
      as [st' response] eqn:Hh.
    erewrite run_upgradeKey by exact Hh.
    destruct (is_KM_ERROR_OK _); eauto.
  - intros purpose keyBlob params authToken result0.
    destruct (h _ (BeginOperation (begin_request purpose keyBlob params
                                                 authToken)) st)
      as [st' response] eqn:Hh.
    erewrite run_begin by exact Hh.
    destruct (is_KM_ERROR_OK _); eauto.
  - intros data. unfold addRngEntropy.
    destruct (List.length data =? 0)%nat; [cbn; eauto|].
    rewrite run_bind, run_invoke. cbn. eauto.
Qed.

(** X10: begin always sends the caller's parameters followed by one
    AUTH_TOKEN parameter that carries the serialized token, with or without
    an auth token, and nothing else.  When the engine answers with an error,
    begin returns that error and leaves [result] as it was; when it answers
    without error, begin returns ok, the operation returned is the one with
    the engine's operation handle, the parameters are the engine's output
    parameters, and the challenge is that handle read as a signed 64-bit
    number: the handle itself below 2^63, the handle less 2^64 from 2^63 on,
    so that the handle is the challenge read back as unsigned. *)
Theorem begin_request_and_result (St : Type) (h : Handler St) (st st' : St)
    purpose keyBlob params authToken result0 response :
  h _ (BeginOperation (begin_request purpose keyBlob params authToken)) st
    = (st', response) ->
  BeginOperationRequest.additional_params
    (begin_request purpose keyBlob params authToken) =
    params ++ [mk_param KM_TAG_AUTH_TOKEN
                 (blob (authToken2AidlVec authToken))] /\
  BeginOperationRequest.key_blob
    (begin_request purpose keyBlob params authToken) = keyBlob /\
  (BeginOperationResponse.error response <> KM_ERROR_OK ->
   run h (begin purpose keyBlob params authToken result0) st =
     Done st' (ScopedAStatus_error (BeginOperationResponse.error response),
               result0)) /\
  (BeginOperationResponse.error response = KM_ERROR_OK ->
   exists result,
     run h (begin purpose keyBlob params authToken result0) st =
       Done st' (ScopedAStatus_ok, result) /\
     BeginResult.operation result =
       Some (AndroidKeyMintOperation.mk
               (BeginOperationResponse.op_handle response)) /\
     BeginResult.params result =
       BeginOperationResponse.output_params response /\
     BeginResult.challenge result =
       to_int64 (BeginOperationResponse.op_handle response) /\
     (- 2 ^ 63 <= BeginResult.challenge result < 2 ^ 63)%Z /\
     ((0 <= BeginOperationResponse.op_handle response < 2 ^ 63)%Z ->
      BeginResult.challenge result =
        BeginOperationResponse.op_handle response) /\
     ((2 ^ 63 <= BeginOperationResponse.op_handle response < 2 ^ 64)%Z ->
      BeginResult.challenge result =
        (BeginOperationResponse.op_handle response - 2 ^ 64)%Z) /\
     ((0 <= BeginOperationResponse.op_handle response < 2 ^ 64)%Z ->
      to_uint64 (BeginResult.challenge result) =
        BeginOperationResponse.op_handle response)).
Proof.
  intros Hh. split; [reflexivity|]. split; [reflexivity|].
  erewrite run_begin by exact Hh. split.
  - intros Herr. rewrite is_KM_ERROR_OK_false by exact Herr.
    now rewrite kmError2ScopedAStatus_error.
  - intros ->. cbn [is_KM_ERROR_OK]. eexists. split; [reflexivity|].
    cbn [BeginResult.operation BeginResult.params BeginResult.challenge].
    set (handle := BeginOperationResponse.op_handle response).
    assert (Hlow : (0 <= handle < 2 ^ 63 -> to_int64 handle = handle)%Z).
    { intros Hrange. unfold to_int64.
      rewrite Z.mod_small by lia. lia. }
    assert (Hhigh : (2 ^ 63 <= handle < 2 ^ 64 ->
                     to_int64 handle = handle - 2 ^ 64)%Z).
    { intros Hrange. unfold to_int64.
      rewrite <- (Z.mod_unique_pos (handle + 2 ^ 63) (2 ^ 64) 1
                    (handle - 2 ^ 63)) by lia. lia. }
    split; [reflexivity|]. split; [reflexivity|]. split; [reflexivity|].
    split; [|split; [exact Hlow|split; [exact Hhigh|]]].
    + unfold to_int64.
      pose proof (Z.mod_pos_bound (handle + 2 ^ 63) (2 ^ 64)). lia.
    + intros Hrange. unfold to_uint64.
      destruct (Z_lt_le_dec handle (2 ^ 63)) as [Hlt|Hge].
      * rewrite Hlow by lia. apply Z.mod_small. lia.
      * rewrite Hhigh by lia. symmetry.
        apply (Z.mod_unique_pos _ _ (-1)); lia.
Qed.

(** X11: the parameters getKeyCharacteristics sends with the key blob are
    made of the client id and the application data alone: an
    APPLICATION_ID parameter carrying appId exactly when appId is not empty,
    and an APPLICATION_DATA parameter carrying appData exactly when appData
    is not empty, the id before the data, and nothing else; with both empty
    the set is empty. *)
Theorem client_and_app_data_params keyBlob appId appData :
  GetKeyCharacteristicsRequest.additional_params
    (getKeyCharacteristics_request keyBlob appId appData) =
    addClientAndAppData appId appData /\
  (Contains (addClientAndAppData appId appData) KM_TAG_APPLICATION_ID = true
     <-> appId <> []) /\
  (Contains (addClientAndAppData appId appData) KM_TAG_APPLICATION_DATA = true
     <-> appData <> []) /\
  (forall entry, In entry (addClientAndAppData appId appData) ->
     (entry = mk_param KM_TAG_APPLICATION_ID (blob appId) /\ appId <> []) \/
     (entry = mk_param KM_TAG_APPLICATION_DATA (blob appData) /\
      appData <> [])) /\
  (appId = [] -> appData = [] -> addClientAndAppData appId appData = []) /\
  (appId <> [] -> appData <> [] ->
   addClientAndAppData appId appData =
     [mk_param KM_TAG_APPLICATION_ID (blob appId);
      mk_param KM_TAG_APPLICATION_DATA (blob appData)]).
Proof.
  clear - keyBlob appId appData.
  split; [reflexivity|].
  destruct appId as [|a appId], appData as [|d appData]; cbn;
    repeat split; try congruence; try discriminate; try tauto;
    intros entry Hin;
    repeat (destruct Hin as [<-|Hin];
            [first [left; split; [reflexivity|discriminate]
                   |right; split; [reflexivity|discriminate]]|]);
    try contradiction.
Qed.

(** X12: importWrappedKey hands the two secure ids to the engine as
    unsigned 64-bit numbers without losing any: the id it sends lies in
    [0, 2^64), is the caller's number when that is not negative and the
    caller's number plus 2^64 when it is negative, and two different 64-bit
    signed ids are never sent as the same number. *)
Theorem secure_ids_as_unsigned wrappedKeyData wrappingKeyBlob maskingKey
    unwrappingParams passwordSid biometricSid :
  let request :=
    importWrappedKey_request wrappedKeyData wrappingKeyBlob maskingKey
      unwrappingParams passwordSid biometricSid in
  ((0 <= ImportWrappedKeyRequest.password_sid request < 2 ^ 64) /\
   (0 <= ImportWrappedKeyRequest.biometric_sid request < 2 ^ 64) /\
   (0 <= passwordSid < 2 ^ 63 ->
    ImportWrappedKeyRequest.password_sid request = passwordSid) /\
   (- 2 ^ 63 <= passwordSid < 0 ->
    ImportWrappedKeyRequest.password_sid request = passwordSid + 2 ^ 64) /\
   (0 <= biometricSid < 2 ^ 63 ->
    ImportWrappedKeyRequest.biometric_sid request = biometricSid) /\
   (- 2 ^ 63 <= biometricSid < 0 ->
    ImportWrappedKeyRequest.biometric_sid request = biometricSid + 2 ^ 64) /\
   (forall x y,
      - 2 ^ 63 <= x < 2 ^ 63 -> - 2 ^ 63 <= y < 2 ^ 63 ->
      to_uint64 x = to_uint64 y -> x = y))%Z.
Proof.
  cbv zeta. cbn [importWrappedKey_request ImportWrappedKeyRequest.password_sid
                 ImportWrappedKeyRequest.biometric_sid].
  unfold to_uint64.
  assert (Hpos : forall x, (0 <= x < 2 ^ 63 -> x mod 2 ^ 64 = x)%Z).
  { intros x Hx. apply Z.mod_small. lia. }
  assert (Hneg : forall x,
            (- 2 ^ 63 <= x < 0 -> x mod 2 ^ 64 = x + 2 ^ 64)%Z).
  { intros x Hx. symmetry. apply (Z.mod_unique_pos _ _ (-1)); lia. }
  repeat split; try (apply Z.mod_pos_bound; lia); auto.
  intros x y Hx Hy Heq.
  destruct (Z_lt_le_dec x 0), (Z_lt_le_dec y 0);
    rewrite ?(Hneg x), ?(Hpos x), ?(Hneg y), ?(Hpos y) in Heq by lia; lia.
Qed.

(** X13: the boot patch level the constructor sets is the first day of
    the month of the OS patch level.  For an OS patch level that fits (up to
    42949672, so every year-and-month number YYYYMM does), the value is the
    OS patch level followed by the day 01, without wrap-around: dividing by
    100 gives the OS patch level back and the remainder is 1; beyond that
    bound the 32-bit product wraps. *)
Theorem boot_patchlevel_is_first_of_month os_patchlevel :
  (0 <= os_patchlevel <= 42949672 ->
   boot_patchlevel os_patchlevel = os_patchlevel * 100 + 1 /\
   boot_patchlevel os_patchlevel / 100 = os_patchlevel /\
   boot_patchlevel os_patchlevel mod 100 = 1 /\
   (forall year month,
      os_patchlevel = year * 100 + month ->
      boot_patchlevel os_patchlevel = year * 10000 + month * 100 + 1) /\
   boot_patchlevel (42949672 + 1) <> (42949672 + 1) * 100 + 1)%Z.
Proof.
  intros Hos. unfold boot_patchlevel.
  assert (Hsmall : ((os_patchlevel * 100 + 1) mod 2 ^ 32
                    = os_patchlevel * 100 + 1)%Z).
  { apply Z.mod_small. lia. }
  rewrite Hsmall. split; [reflexivity|]. split; [|split; [|split]].
  - symmetry. apply (Z.div_unique _ _ _ 1); lia.
  - symmetry. apply (Z.mod_unique _ _ os_patchlevel); lia.
  - intros year month ->. lia.
  - vm_compute. discriminate.
Qed.

(** The calls this variant does not provide return an error without going
    to the engine and without writing to their out parameter. *)
Lemma unimplemented_calls (St : Type) (h : Handler St) (st : St)
    (blob1 blob2 : bytes) :
  run h destroyAttestationIds st =
    Done st (ScopedAStatus_error KM_ERROR_UNIMPLEMENTED) /\
  run h (convertStorageKeyToEphemeral blob1 blob2) st =
    Done st (ScopedAStatus_error KM_ERROR_UNIMPLEMENTED, blob2) /\
  run h (getRootOfTrustChallenge blob1) st =
    Done st (ScopedAStatus_error KM_ERROR_UNIMPLEMENTED, blob1) /\
  run h (getRootOfTrust blob1 blob2) st =
    Done st (ScopedAStatus_error KM_ERROR_UNIMPLEMENTED, blob2) /\
  run h (sendRootOfTrust blob1) st =
    Done st (ScopedAStatus_error KM_ERROR_UNIMPLEMENTED).
Proof. repeat split. Qed.

Lemma to_keystore_request requestParams requestParams' entry :
  (Contains requestParams KM_TAG_CREATION_DATETIME =
   Contains requestParams' KM_TAG_CREATION_DATETIME \/
   tag entry <> KM_TAG_CREATION_DATETIME) ->
  to_keystore requestParams entry = to_keystore requestParams' entry.
Proof.
  unfold to_keystore. destruct entry as [t v]. cbn [tag].
  intros Hsame.
  destruct (keymaster_tag_eq_dec t KM_TAG_CREATION_DATETIME) as [->|Hne].
  - destruct Hsame as [Hsame|Hne]; [exact Hsame|congruence].
  - destruct t; try reflexivity. congruence.
Qed.

(** X14: the request can influence the classification only through
    whether it contains a CREATION_DATETIME tag.  At every level other than
    SOFTWARE the outcome does not depend on the request at all; at level
    SOFTWARE two requests that agree on containing CREATION_DATETIME give the
    same outcome, and when the software-enforced list has no
    CREATION_DATETIME entry any two requests do. *)
Theorem request_matters_only_for_creation_datetime requestParams requestParams'
    sw_enforced hw_enforced inc :
  (forall level, level <> SOFTWARE ->
     convertKeyCharacteristics level requestParams sw_enforced hw_enforced inc =
     convertKeyCharacteristics level requestParams' sw_enforced hw_enforced inc)
  /\
  (Contains requestParams KM_TAG_CREATION_DATETIME =
   Contains requestParams' KM_TAG_CREATION_DATETIME ->
   convertKeyCharacteristics SOFTWARE requestParams sw_enforced hw_enforced inc =
   convertKeyCharacteristics SOFTWARE requestParams' sw_enforced hw_enforced inc)
  /\
  ((forall entry, In entry sw_enforced ->
      tag entry <> KM_TAG_CREATION_DATETIME) ->
   convertKeyCharacteristics SOFTWARE requestParams sw_enforced hw_enforced inc =
   convertKeyCharacteristics SOFTWARE requestParams' sw_enforced hw_enforced inc).
Proof.
  split; [|split].
  - intros level Hlevel. now rewrite !convert_hardware_level by exact Hlevel.
  - intros Hsame. rewrite !convert_software_level.
    rewrite (filter_ext (to_keystore requestParams)
                        (to_keystore requestParams')); [reflexivity|].
    intros entry. apply to_keystore_request. now left.
  - intros Hnone. rewrite !convert_software_level.
    rewrite (filter_ext_in (to_keystore requestParams)
                           (to_keystore requestParams')); [reflexivity|].
    intros entry Hin. apply to_keystore_request. right. now apply Hnone.
Qed.

(** X15: at level SOFTWARE the classification works entry by entry.  When
    two software-enforced lists are each classified with a return, so is
    their concatenation, and its KeyMint-enforced and KEYSTORE authorizations
    are those of the first list followed by those of the second. *)
Theorem classification_of_concatenation requestParams sw1 sw2 inc out1 out2 :
  convertKeyCharacteristics SOFTWARE requestParams sw1 [] inc = Ret out1 ->
  convertKeyCharacteristics SOFTWARE requestParams sw2 [] inc = Ret out2 ->
  exists out,
    convertKeyCharacteristics SOFTWARE requestParams (sw1 ++ sw2) [] inc
      = Ret out /\
    domain_authorizations SOFTWARE out =
      domain_authorizations SOFTWARE out1 ++
      domain_authorizations SOFTWARE out2 /\
    domain_authorizations KEYSTORE out =
      domain_authorizations KEYSTORE out1 ++
      domain_authorizations KEYSTORE out2.
Proof.
  intros Hout1 Hout2.
  destruct (software_domain_authorizations _ _ _ _ Hout1) as [Hkm1 Hks1].
  destruct (software_domain_authorizations _ _ _ _ Hout2) as [Hkm2 Hks2].
  assert (Hno : no_invalid_tag (sw1 ++ sw2) = true).
  { unfold no_invalid_tag. rewrite forallb_app. apply andb_true_iff.
    rewrite convert_software_level in Hout1, Hout2. cbn [empty] in Hout1, Hout2.
    unfold no_invalid_tag in Hout1, Hout2.
    destruct (forallb _ sw1); [|discriminate].
    destruct (forallb _ sw2); [|discriminate]. auto. }
  destruct (convertKeyCharacteristics SOFTWARE requestParams (sw1 ++ sw2) []
                                      inc) as [out| |] eqn:Hout.
  - exists out. split; [reflexivity|].
    destruct (software_domain_authorizations _ _ _ _ Hout) as [Hkm Hks].
    rewrite Hkm, Hks, Hkm1, Hkm2, Hks1, Hks2, !filter_app.
    split; [reflexivity|]. now destruct inc.
  - rewrite convert_software_level, Hno in Hout. discriminate.
  - rewrite convert_software_level, Hno in Hout. discriminate.
Qed.

End Device.

(* ================================================================== *)
(** ** The theorems at concrete inputs *)
(* ================================================================== *)

(** A software key with an algorithm, a user, a creation time and
    application data: the algorithm is KeyMint-enforced, the user
    keystore-enforced, the creation time is kept because it was requested, and
    the application data is left out. *)
Lemma software_level_routing_witness :
  convertKeyCharacteristics SOFTWARE
    [mk_param KM_TAG_CREATION_DATETIME (date_time 7)]
    [mk_param KM_TAG_ALGORITHM (integer 32);
     mk_param KM_TAG_USER_ID (integer 10);
     mk_param KM_TAG_CREATION_DATETIME (date_time 7);
     mk_param KM_TAG_APPLICATION_DATA (blob [])]
    [] true =
  Ret [mk_KeyCharacteristics SOFTWARE [mk_param KM_TAG_ALGORITHM (integer 32)];
       mk_KeyCharacteristics KEYSTORE
         [mk_param KM_TAG_USER_ID (integer 10);
          mk_param KM_TAG_CREATION_DATETIME (date_time 7)]] /\
  tag_category KM_TAG_ALGORITHM = Some HardwareEnforced /\
  (tag_category KM_TAG_USER_ID = Some KeystoreEnforced \/
   tag_category KM_TAG_USER_ID = Some ConditionalKeystore /\
   Contains [mk_param KM_TAG_CREATION_DATETIME (date_time 7)] KM_TAG_USER_ID
     = true).
Proof.
  pose proof (@software_level_routing
                [mk_param KM_TAG_CREATION_DATETIME (date_time 7)]
                [mk_param KM_TAG_ALGORITHM (integer 32);
                 mk_param KM_TAG_USER_ID (integer 10);
                 mk_param KM_TAG_CREATION_DATETIME (date_time 7);
                 mk_param KM_TAG_APPLICATION_DATA (blob [])]
                [] true _ eq_refl) as (Hkm & Hks & _).
  split; [reflexivity|]. split.
  - apply (Hkm (mk_param KM_TAG_ALGORITHM (integer 32))). cbn. auto.
  - apply (Hks (mk_param KM_TAG_USER_ID (integer 10))). cbn. auto.
Defined.

Lemma hardware_level_verbatim_witness :
  STRONGBOX <> SOFTWARE /\
  convertKeyCharacteristics STRONGBOX []
    [mk_param KM_TAG_APPLICATION_DATA (blob []);
     mk_param KM_TAG_ALGORITHM (integer 32)]
    [mk_param KM_TAG_USER_ID (integer 10); mk_param KM_TAG_NONCE (blob [])]
    true =
  Ret [mk_KeyCharacteristics STRONGBOX
         [mk_param KM_TAG_USER_ID (integer 10); mk_param KM_TAG_NONCE (blob [])];
       mk_KeyCharacteristics KEYSTORE
         [mk_param KM_TAG_APPLICATION_DATA (blob []);
          mk_param KM_TAG_ALGORITHM (integer 32)]].
Proof.
  assert (Hlevel : STRONGBOX <> SOFTWARE) by discriminate.
  split; [exact Hlevel|].
  apply (@hardware_level_verbatim STRONGBOX [] _ _ true Hlevel);
    [reflexivity|discriminate].
Defined.

Lemma hardware_list_check_witness :
  [mk_param KM_TAG_ALGORITHM (integer 32)] <> [] /\
  convertKeyCharacteristics SOFTWARE [] []
    [mk_param KM_TAG_ALGORITHM (integer 32)] true =
  CheckFail "Hardware-enforced list is non-empty for pure SW KeyMint".
Proof.
  assert (Hhw : [mk_param KM_TAG_ALGORITHM (integer 32)] <> []) by discriminate.
  split; [exact Hhw|].
  exact (proj1 hardware_list_check [] [] _ true Hhw).
Defined.

(** C3, the claim as stated, at the level TRUSTED_ENVIRONMENT with one
    hardware-enforced authorization: the level is not SOFTWARE, the list is not
    empty, and the classification returns with the list in its first entry; no
    CHECK fails. *)
Lemma nonempty_hardware_list_passes :
  TRUSTED_ENVIRONMENT <> SOFTWARE /\
  [mk_param KM_TAG_ALGORITHM (integer 32)] <> [] /\
  convertKeyCharacteristics TRUSTED_ENVIRONMENT [] []
    [mk_param KM_TAG_ALGORITHM (integer 32)] true =
  Ret [mk_KeyCharacteristics TRUSTED_ENVIRONMENT
         [mk_param KM_TAG_ALGORITHM (integer 32)]] /\
  ~ (exists msg,
       convertKeyCharacteristics TRUSTED_ENVIRONMENT [] []
         [mk_param KM_TAG_ALGORITHM (integer 32)] true = CheckFail msg).
Proof.
  repeat split; try discriminate.
  intros [msg Hmsg]. discriminate Hmsg.
Qed.

(** The creation time of a software key, requested and echoed among other
    entries. *)
Lemma creation_datetime_iff_requested_witness :
  (true = true \/ [mk_param KM_TAG_CREATION_DATETIME (date_time 0)] = []) /\
  convertKeyCharacteristics SOFTWARE
    [mk_param KM_TAG_CREATION_DATETIME (date_time 0)]
    [mk_param KM_TAG_ALGORITHM (integer 32);
     mk_param KM_TAG_CREATION_DATETIME (date_time 7);
     mk_param KM_TAG_USER_ID (integer 10)] [] true =
  Ret [mk_KeyCharacteristics SOFTWARE [mk_param KM_TAG_ALGORITHM (integer 32)];
       mk_KeyCharacteristics KEYSTORE
         [mk_param KM_TAG_CREATION_DATETIME (date_time 7);
          mk_param KM_TAG_USER_ID (integer 10)]] /\
  (In (mk_param KM_TAG_CREATION_DATETIME (date_time 7))
      (domain_authorizations KEYSTORE
         [mk_KeyCharacteristics SOFTWARE
            [mk_param KM_TAG_ALGORITHM (integer 32)];
          mk_KeyCharacteristics KEYSTORE
            [mk_param KM_TAG_CREATION_DATETIME (date_time 7);
             mk_param KM_TAG_USER_ID (integer 10)]]) <->
   Contains [mk_param KM_TAG_CREATION_DATETIME (date_time 0)]
            KM_TAG_CREATION_DATETIME = true).
Proof.
  assert (Hcall : true = true \/
                  [mk_param KM_TAG_CREATION_DATETIME (date_time 0)] = [])
    by (left; reflexivity).
  split; [exact Hcall|]. split; [reflexivity|].
  refine (proj1 (@creation_datetime_iff_requested
                   [mk_param KM_TAG_CREATION_DATETIME (date_time 0)]
                   [mk_param KM_TAG_ALGORITHM (integer 32);
                    mk_param KM_TAG_CREATION_DATETIME (date_time 7);
                    mk_param KM_TAG_USER_ID (integer 10)]
                   [] true _
                   (mk_param KM_TAG_CREATION_DATETIME (date_time 7))
                   Hcall eq_refl _ eq_refl)).
  right. left. reflexivity.
Defined.

Lemma output_order_and_omission_witness :
  convertKeyCharacteristics SOFTWARE []
    [mk_param KM_TAG_USER_ID (integer 10);
     mk_param KM_TAG_ALGORITHM (integer 32)] [] true =
  Ret ([mk_KeyCharacteristics SOFTWARE [mk_param KM_TAG_ALGORITHM (integer 32)]]
       ++ [mk_KeyCharacteristics KEYSTORE
             [mk_param KM_TAG_USER_ID (integer 10)]]) /\
  (SOFTWARE = SOFTWARE ->
   forall kc,
     In kc [mk_KeyCharacteristics SOFTWARE
              [mk_param KM_TAG_ALGORITHM (integer 32)];
            mk_KeyCharacteristics KEYSTORE
              [mk_param KM_TAG_USER_ID (integer 10)]] ->
     authorizations kc <> []).
Proof.
  split; [reflexivity|].
  exact (proj1 (proj2 (@output_order_and_omission SOFTWARE []
                         [mk_param KM_TAG_USER_ID (integer 10);
                          mk_param KM_TAG_ALGORITHM (integer 32)]
                         [] true _ eq_refl))).
Defined.

(** C5, the claim as stated, at the level TRUSTED_ENVIRONMENT with nothing
    hardware-enforced: the output has an entry, and its authorization list is
    empty. *)
Lemma empty_hardware_entry_is_returned :
  convertKeyCharacteristics TRUSTED_ENVIRONMENT [] [] [] true =
    Ret [mk_KeyCharacteristics TRUSTED_ENVIRONMENT []] /\
  In (mk_KeyCharacteristics TRUSTED_ENVIRONMENT [])
     [mk_KeyCharacteristics TRUSTED_ENVIRONMENT []] /\
  authorizations (mk_KeyCharacteristics TRUSTED_ENVIRONMENT []) = [].
Proof.
  repeat split. now left.
Qed.



Lemma engine_error_leaves_outputs_witness :
  run (stateless rejecting_reply)
      (generateKey (fun b => b) (mk_AndroidKeyMintDevice SOFTWARE)
         [mk_param KM_TAG_ALGORITHM (integer 32)] None
         (KeyCreationResult.mk [] [] [])) tt =
    Done tt (ScopedAStatus_error (KM_ERROR_other (-1)),
             KeyCreationResult.mk [] [] []) /\
  run (stateless rejecting_reply)
      (upgradeKey (fun b => b) [] [] []) tt =
    Done tt (ScopedAStatus_error (KM_ERROR_other (-1)), []).
Proof.
  destruct (@engine_error_leaves_outputs (fun b => b) (fun x => x)
              (mk_AndroidKeyMintDevice SOFTWARE) unit
              (stateless rejecting_reply) tt tt)
    as (Hgenerate & _ & _ & Hupgrade).
  split.
  - apply (Hgenerate [mk_param KM_TAG_ALGORITHM (integer 32)] None
             (KeyCreationResult.mk [] [] []) _ eq_refl).
    discriminate.
  - apply (Hupgrade [] [] [] _ eq_refl). discriminate.
Defined.

Lemma operation_table_capacity_witness :
  let c := mk_BeginCall 0 [] [] (@None unit) (BeginResult.mk [] 0 None) in
  let table :=
    mk_OperationTable 16 (map Z.of_nat (seq 1 16)) 17%Z in
  let results :=
    map (fun h => BeginResult.mk [] h (Some (AndroidKeyMintOperation.mk h)))
        (map Z.of_nat (seq 1 16)) in
  List.length (repeat c 16) = kOperationTableSize /\
  begin_each (fun _ => []) (fun x => x) (AndroidKeymaster accepting_reply)
    (repeat c 16) impl_new = Some (table, results) /\
  List.length (table_ table) = 16%nat /\
  List.length results = 16%nat /\
  (exists e,
     run (AndroidKeymaster accepting_reply)
         (begin_call (fun _ => []) (fun x => x) c) table =
       Done table (ScopedAStatus_error e, BeginResult.mk [] 0 None) /\
     (KM_ERROR_OK = KM_ERROR_OK -> e = KM_ERROR_TOO_MANY_OPERATIONS)) /\
  (exists op table',
     BeginResult.operation
       (BeginResult.mk [] 3 (Some (AndroidKeyMintOperation.mk 3%Z))) = Some op /\
     In (AndroidKeyMintOperation.opHandle_ op) (table_ table) /\
     run (AndroidKeymaster accepting_reply) (abort op) table =
       Done table' ScopedAStatus_ok /\
     ~ In (AndroidKeyMintOperation.opHandle_ op) (table_ table') /\
     (List.length (table_ table') < 16)%nat /\
     forall c',
       BeginOperationResponse.error
         (accepting_reply
            (BeginOperation (request_of (fun _ => []) (fun x => x) c')))
         = KM_ERROR_OK ->
       exists table'' result op',
         run (AndroidKeymaster accepting_reply)
             (begin_call (fun _ : option unit => []) (fun x => x) c') table' =
           Done table'' (ScopedAStatus_ok, result) /\
         BeginResult.operation result = Some op' /\
         In (AndroidKeyMintOperation.opHandle_ op') (table_ table'')).
Proof.
  cbv zeta.
  assert (Hrun :
    begin_each (fun _ : option unit => []) (fun x => x)
      (AndroidKeymaster accepting_reply)
      (repeat (mk_BeginCall 0 [] [] None (BeginResult.mk [] 0 None)) 16)
      impl_new =
    Some (mk_OperationTable 16 (map Z.of_nat (seq 1 16)) 17%Z,
          map (fun h => BeginResult.mk [] h (Some (AndroidKeyMintOperation.mk h)))
              (map Z.of_nat (seq 1 16))))
    by (vm_compute; reflexivity).
  split; [reflexivity|]. split; [exact Hrun|].
  destruct (@operation_table_capacity unit (fun _ => []) (fun x => x)
              accepting_reply
              (repeat (mk_BeginCall 0 [] [] None (BeginResult.mk [] 0 None)) 16)
              _ _ eq_refl Hrun)
    as (Hfull & Hresults & Hfurther & Habort).
  split; [exact Hfull|]. split; [exact Hresults|]. split.
  - exact (Hfurther (mk_BeginCall 0 [] [] None (BeginResult.mk [] 0 None))).
  - apply Habort. cbn. auto.
Defined.

Lemma addRngEntropy_empty_skips_engine_witness :
  engine_calls (stateless rejecting_reply) (addRngEntropy [x00]) tt = 1 /\
  run (stateless rejecting_reply) (addRngEntropy [x00]) tt =
    Done tt (ScopedAStatus_error (KM_ERROR_other (-1))).
Proof.
  assert (Hdata : [x00] <> []) by discriminate.
  exact (proj2 (proj2 addRngEntropy_empty_skips_engine) [x00] Hdata
               unit (stateless rejecting_reply) tt).
Defined.

(* ================================================================== *)
(** ** Scenarios *)
(* ================================================================== *)

(** An AES key at level SOFTWARE: algorithm, key size, purpose and
    NO_AUTH_REQUIRED are all KeyMint-enforced, and there is no KEYSTORE
    entry. *)
Example aes_key_at_software_level :
  convertKeyCharacteristics SOFTWARE
    [mk_param KM_TAG_ALGORITHM (integer 32)]
    [mk_param KM_TAG_ALGORITHM (integer 32);
     mk_param KM_TAG_KEY_SIZE (integer 256);
     mk_param KM_TAG_PURPOSE (integer 0);
     mk_param KM_TAG_NO_AUTH_REQUIRED (boolean true)]
    [] true =
  Ret [mk_KeyCharacteristics SOFTWARE
         [mk_param KM_TAG_ALGORITHM (integer 32);
          mk_param KM_TAG_KEY_SIZE (integer 256);
          mk_param KM_TAG_PURPOSE (integer 0);
          mk_param KM_TAG_NO_AUTH_REQUIRED (boolean true)]].
Proof. reflexivity. Qed.

(** With a USER_ID on top, the KEYSTORE entry holds exactly the USER_ID. *)
Example user_id_at_software_level :
  convertKeyCharacteristics SOFTWARE []
    [mk_param KM_TAG_ALGORITHM (integer 32);
     mk_param KM_TAG_USER_ID (integer 10)]
    [] true =
  Ret [mk_KeyCharacteristics SOFTWARE [mk_param KM_TAG_ALGORITHM (integer 32)];
       mk_KeyCharacteristics KEYSTORE [mk_param KM_TAG_USER_ID (integer 10)]].
Proof. reflexivity. Qed.

(** A creation time the engine added on its own is dropped. *)
Example unrequested_creation_datetime :
  convertKeyCharacteristics SOFTWARE
    [mk_param KM_TAG_ALGORITHM (integer 32)]
    [mk_param KM_TAG_ALGORITHM (integer 32);
     mk_param KM_TAG_CREATION_DATETIME (date_time 7)]
    [] true =
  Ret [mk_KeyCharacteristics SOFTWARE [mk_param KM_TAG_ALGORITHM (integer 32)]].
Proof. reflexivity. Qed.

(** A tag of the invalid group in the software-enforced list ends the
    process. *)
Example invalid_tag_is_fatal :
  convertKeyCharacteristics SOFTWARE []
    [mk_param KM_TAG_ALGORITHM (integer 32); mk_param KM_TAG_KDF (integer 1)]
    [] true =
  CheckFail "We shouldn't see tag".
Proof. reflexivity. Qed.

(** generateKey on a software device whose engine accepts the request. *)
Example generateKey_on_accepting_engine :
  run (stateless accepting_reply)
      (generateKey (fun b => b) (mk_AndroidKeyMintDevice SOFTWARE)
         [mk_param KM_TAG_ALGORITHM (integer 32)] None
         (KeyCreationResult.mk [] [] [])) tt =
  Done tt (ScopedAStatus_ok, KeyCreationResult.mk [] [] []).
Proof. reflexivity. Qed.

(* ================================================================== *)
(** ** The further theorems at concrete inputs *)
(* ================================================================== *)

Lemma software_classification_outcome_witness :
  (exists entry,
     In entry [mk_param KM_TAG_ALGORITHM (integer 32);
               mk_param KM_TAG_ROLLBACK_RESISTANCE (boolean true)] /\
     tag_category (tag entry) = Some Invalid) /\
  convertKeyCharacteristics SOFTWARE []
    [mk_param KM_TAG_ALGORITHM (integer 32);
     mk_param KM_TAG_ROLLBACK_RESISTANCE (boolean true)] [] true =
  CheckFail "We shouldn't see tag".
Proof.
  assert (Hbad : exists entry,
            In entry [mk_param KM_TAG_ALGORITHM (integer 32);
                      mk_param KM_TAG_ROLLBACK_RESISTANCE (boolean true)] /\
            tag_category (tag entry) = Some Invalid).
  { exists (mk_param KM_TAG_ROLLBACK_RESISTANCE (boolean true)).
    split; [right; left; reflexivity|reflexivity]. }
  split; [exact Hbad|].
  exact (proj2 (proj2 (software_classification_outcome [] _ [] true))
               eq_refl Hbad).
Defined.

Lemma software_level_keeps_enforced_witness :
  convertKeyCharacteristics SOFTWARE []
    [mk_param KM_TAG_PURPOSE (integer 2);
     mk_param KM_TAG_USER_ID (integer 10);
     mk_param (KM_TAG_unlisted 77) (integer 1);
     mk_param KM_TAG_PURPOSE (integer 3);
     mk_param KM_TAG_PURPOSE (integer 2)] [] true =
  Ret [mk_KeyCharacteristics SOFTWARE
         [mk_param KM_TAG_PURPOSE (integer 2);
          mk_param KM_TAG_PURPOSE (integer 3);
          mk_param KM_TAG_PURPOSE (integer 2)];
       mk_KeyCharacteristics KEYSTORE [mk_param KM_TAG_USER_ID (integer 10)]] /\
  domain_authorizations SOFTWARE
    [mk_KeyCharacteristics SOFTWARE
       [mk_param KM_TAG_PURPOSE (integer 2);
        mk_param KM_TAG_PURPOSE (integer 3);
        mk_param KM_TAG_PURPOSE (integer 2)];
     mk_KeyCharacteristics KEYSTORE [mk_param KM_TAG_USER_ID (integer 10)]] =
  filter to_keyMint
    [mk_param KM_TAG_PURPOSE (integer 2);
     mk_param KM_TAG_USER_ID (integer 10);
     mk_param (KM_TAG_unlisted 77) (integer 1);
     mk_param KM_TAG_PURPOSE (integer 3);
     mk_param KM_TAG_PURPOSE (integer 2)].
Proof.
  split; [reflexivity|].
  refine (proj1 (software_level_keeps_enforced [] _ [] true _)).
  reflexivity.
Defined.

Lemma lookup_matches_creation_witness :
  exists out tail,
    run (stateless
           (answering []
              [mk_param KM_TAG_ALGORITHM (integer 32);
               mk_param KM_TAG_USER_ID (integer 10)] []))
        (getKeyCharacteristics (CreateKeyMintDevice SOFTWARE) [] [] [] []) tt
      = Done tt (ScopedAStatus_ok, out) /\
    [mk_KeyCharacteristics SOFTWARE [mk_param KM_TAG_ALGORITHM (integer 32)];
     mk_KeyCharacteristics KEYSTORE [mk_param KM_TAG_USER_ID (integer 10)]]
      = out ++ tail /\
    (tail = [] \/
     exists keystoreEnforced,
       keystoreEnforced <> [] /\
       tail = [mk_KeyCharacteristics KEYSTORE keystoreEnforced]).
Proof.
  exact (@lookup_matches_creation (fun b => b) (CreateKeyMintDevice SOFTWARE)
           unit
           (stateless
              (answering []
                 [mk_param KM_TAG_ALGORITHM (integer 32);
                  mk_param KM_TAG_USER_ID (integer 10)] []))
           tt tt tt tt [] None (KeyCreationResult.mk [] [] [])
           _
           (KeyCreationResult.mk []
              [mk_KeyCharacteristics SOFTWARE
                 [mk_param KM_TAG_ALGORITHM (integer 32)];
               mk_KeyCharacteristics KEYSTORE
                 [mk_param KM_TAG_USER_ID (integer 10)]] [])
           [] [] [] [] _
           eq_refl eq_refl eq_refl eq_refl eq_refl eq_refl).
Defined.

Lemma creation_datetime_echoed_iff_requested_witness :
  CreateKeyMintDevice SOFTWARE = mk_AndroidKeyMintDevice SOFTWARE /\
  (In (mk_param KM_TAG_CREATION_DATETIME (date_time 7))
      (domain_authorizations KEYSTORE
         [mk_KeyCharacteristics SOFTWARE
            [mk_param KM_TAG_ALGORITHM (integer 32)];
          mk_KeyCharacteristics KEYSTORE
            [mk_param KM_TAG_CREATION_DATETIME (date_time 7)]]) <->
   Contains [mk_param KM_TAG_CREATION_DATETIME (date_time 0)]
            KM_TAG_CREATION_DATETIME = true).
Proof.
  split; [reflexivity|].
  destruct (@creation_datetime_echoed_iff_requested (fun b => b) (fun x => x)
              (CreateKeyMintDevice SOFTWARE) unit
              (stateless
                 (answering []
                    [mk_param KM_TAG_ALGORITHM (integer 32);
                     mk_param KM_TAG_CREATION_DATETIME (date_time 7)] []))
              tt tt tt eq_refl) as (Hgenerate & _).
  refine (Hgenerate [mk_param KM_TAG_CREATION_DATETIME (date_time 0)] None
            (KeyCreationResult.mk [] [] []) _
            (KeyCreationResult.mk [] _ [])
            (mk_param KM_TAG_CREATION_DATETIME (date_time 7))
            eq_refl eq_refl _ eq_refl).
  right. left. reflexivity.
Defined.

Lemma characteristics_carry_reported_level_witness :
  exists info,
    getHardwareInfo (CreateKeyMintDevice STRONGBOX)
      (KeyMintHardwareInfo.mk 0 SOFTWARE "" "" true)
      = Ret (ScopedAStatus_ok, info) /\
    KeyMintHardwareInfo.securityLevel info = STRONGBOX.
Proof.
  destruct (@characteristics_carry_reported_level (fun b => b) (fun x => x)
              (CreateKeyMintDevice STRONGBOX) unit
              (stateless accepting_reply) tt tt
              (KeyMintHardwareInfo.mk 0 SOFTWARE "" "" true))
    as (info & Hinfo & Hlevel & _).
  exists info. split; [exact Hinfo|exact Hlevel].
Defined.

Lemma certificate_chain_round_trip_witness :
  map Certificate.encodedCertificate
      (KeyCreationResult.certificateChain
         (KeyCreationResult.mk [] []
            [Certificate.mk [x30; x82]; Certificate.mk [x30; x81; x01]])) =
  [[x30; x82]; [x30; x81; x01]].
Proof.
  destruct (certificate_chain_round_trip (fun b => b) (fun x => x)
              (CreateKeyMintDevice STRONGBOX)) as (_ & Hcalls).
  destruct (Hcalls unit
              (stateless (answering [] [] [[x30; x82]; [x30; x81; x01]]))
              tt tt tt) as (Hgenerate & _).
  exact (Hgenerate [] None (KeyCreationResult.mk [] [] []) _ _
                   eq_refl eq_refl).
Defined.

Lemma engine_mismatch_aborts_witness :
  exists msg,
    run (stateless
           (answering [mk_param KM_TAG_ALGORITHM (integer 32)] [] []))
        (generateKey (fun b => b) (CreateKeyMintDevice SOFTWARE) [] None
           (KeyCreationResult.mk [] [] [])) tt = Aborted msg.
Proof.
  destruct (@engine_mismatch_aborts (fun b => b) (fun x => x)
              (CreateKeyMintDevice SOFTWARE) unit
              (stateless
                 (answering [mk_param KM_TAG_ALGORITHM (integer 32)] [] []))
              tt tt eq_refl) as (Hgenerate & _).
  refine (Hgenerate [] None (KeyCreationResult.mk [] [] []) _
                    eq_refl eq_refl _).
  left. discriminate.
Defined.

Lemma calls_that_always_return_witness :
  TRUSTED_ENVIRONMENT <> SOFTWARE /\
  exists st' result,
    run (stateless
           (answering [mk_param KM_TAG_KDF (integer 1)]
                      [mk_param KM_TAG_INVALID (integer 0)] []))
        (generateKey (fun b => b) (CreateKeyMintDevice TRUSTED_ENVIRONMENT)
           [] None (KeyCreationResult.mk [] [] [])) tt = Done st' result.
Proof.
  assert (Hlevel : TRUSTED_ENVIRONMENT <> SOFTWARE) by discriminate.
  split; [exact Hlevel|].
  destruct (@calls_that_always_return (fun b => b) unit (fun _ => [])
              (fun x => x) (CreateKeyMintDevice TRUSTED_ENVIRONMENT) unit
              (stateless
                 (answering [mk_param KM_TAG_KDF (integer 1)]
                            [mk_param KM_TAG_INVALID (integer 0)] []))
              tt) as (Hclassify & _).
  destruct (Hclassify Hlevel) as (Hgenerate & _).
  exact (Hgenerate [] None (KeyCreationResult.mk [] [] [])).
Defined.

Lemma begin_request_and_result_witness :
  exists result,
    run (stateless (answering_handle (2 ^ 64 - 1)%Z))
        (begin (fun _ : option unit => [x2a]) (fun x => x) 2 [x01]
           [mk_param KM_TAG_PADDING (integer 1)] None
           (BeginResult.mk [] 0 None)) tt =
      Done tt (ScopedAStatus_ok, result) /\
    BeginResult.operation result =
      Some (AndroidKeyMintOperation.mk (2 ^ 64 - 1)%Z) /\
    BeginResult.params result = [mk_param KM_TAG_NONCE (blob [x07])] /\
    BeginResult.challenge result = (-1)%Z /\
    to_uint64 (BeginResult.challenge result) = (2 ^ 64 - 1)%Z.
Proof.
  destruct (proj2 (proj2 (proj2
              (@begin_request_and_result unit (fun _ => [x2a]) (fun x => x)
                 unit (stateless (answering_handle (2 ^ 64 - 1)%Z)) tt tt 2 [x01]
                 [mk_param KM_TAG_PADDING (integer 1)] None
                 (BeginResult.mk [] 0 None) _ eq_refl))) eq_refl)
    as (result & Hrun & Hop & Hparams & Hchallenge & _ & _ & Hhigh & Hback).
  exists result. split; [exact Hrun|]. split; [exact Hop|].
  split; [exact Hparams|]. split.
  - rewrite Hhigh; [reflexivity|]. cbn. lia.
  - apply Hback. cbn. lia.
Defined.

Lemma client_and_app_data_params_witness :
  [x61] <> [] /\ [x64; x64] <> [] /\
  addClientAndAppData [x61] [x64; x64] =
    [mk_param KM_TAG_APPLICATION_ID (blob [x61]);
     mk_param KM_TAG_APPLICATION_DATA (blob [x64; x64])].
Proof.
  assert (Hid : [x61] <> []) by discriminate.
  assert (Hdata : [x64; x64] <> []) by discriminate.
  split; [exact Hid|]. split; [exact Hdata|].
  exact (proj2 (proj2 (proj2 (proj2 (proj2
           (client_and_app_data_params [] [x61] [x64; x64]))))) Hid Hdata).
Defined.

Lemma secure_ids_as_unsigned_witness :
  (- 2 ^ 63 <= -1 < 0)%Z /\
  ImportWrappedKeyRequest.password_sid
    (importWrappedKey_request [] [] [] [] (-1) 0) = (-1 + 2 ^ 64)%Z.
Proof.
  assert (Hsid : (- 2 ^ 63 <= -1 < 0)%Z) by lia.
  split; [exact Hsid|].
  exact (proj1 (proj2 (proj2 (proj2
           (secure_ids_as_unsigned [] [] [] [] (-1) 0)))) Hsid).
Defined.

Lemma boot_patchlevel_is_first_of_month_witness :
  (0 <= 202401 <= 42949672)%Z /\
  boot_patchlevel 202401 = 20240101%Z /\
  (boot_patchlevel 202401 / 100 = 202401)%Z /\
  (boot_patchlevel 202401 mod 100 = 1)%Z.
Proof.
  assert (Hos : (0 <= 202401 <= 42949672)%Z) by lia.
  split; [exact Hos|].
  destruct (boot_patchlevel_is_first_of_month Hos) as (Hvalue & Hdiv & Hmod & _).
  split; [exact Hvalue|]. split; [exact Hdiv|exact Hmod].
Defined.

Lemma request_matters_only_for_creation_datetime_witness :
  Contains [mk_param KM_TAG_CREATION_DATETIME (date_time 0)]
           KM_TAG_CREATION_DATETIME =
  Contains [mk_param KM_TAG_ALGORITHM (integer 1);
            mk_param KM_TAG_CREATION_DATETIME (date_time 9)]
           KM_TAG_CREATION_DATETIME /\
  convertKeyCharacteristics SOFTWARE
    [mk_param KM_TAG_CREATION_DATETIME (date_time 0)]
    [mk_param KM_TAG_CREATION_DATETIME (date_time 7)] [] true =
  convertKeyCharacteristics SOFTWARE
    [mk_param KM_TAG_ALGORITHM (integer 1);
     mk_param KM_TAG_CREATION_DATETIME (date_time 9)]
    [mk_param KM_TAG_CREATION_DATETIME (date_time 7)] [] true.
Proof.
  split; [reflexivity|].
  exact (proj1 (proj2 (request_matters_only_for_creation_datetime
                         [mk_param KM_TAG_CREATION_DATETIME (date_time 0)]
                         [mk_param KM_TAG_ALGORITHM (integer 1);
                          mk_param KM_TAG_CREATION_DATETIME (date_time 9)]
                         [mk_param KM_TAG_CREATION_DATETIME (date_time 7)]
                         [] true)) eq_refl).
Defined.

Lemma classification_of_concatenation_witness :
  exists out,
    convertKeyCharacteristics SOFTWARE []
      ([mk_param KM_TAG_ALGORITHM (integer 32);
        mk_param KM_TAG_USER_ID (integer 10)] ++
       [mk_param KM_TAG_DIGEST (integer 4)]) [] true = Ret out /\
    domain_authorizations SOFTWARE out =
      domain_authorizations SOFTWARE
        [mk_KeyCharacteristics SOFTWARE
           [mk_param KM_TAG_ALGORITHM (integer 32)];
         mk_KeyCharacteristics KEYSTORE
           [mk_param KM_TAG_USER_ID (integer 10)]] ++
      domain_authorizations SOFTWARE
        [mk_KeyCharacteristics SOFTWARE [mk_param KM_TAG_DIGEST (integer 4)]] /\
    domain_authorizations KEYSTORE out =
      domain_authorizations KEYSTORE
        [mk_KeyCharacteristics SOFTWARE
           [mk_param KM_TAG_ALGORITHM (integer 32)];
         mk_KeyCharacteristics KEYSTORE
           [mk_param KM_TAG_USER_ID (integer 10)]] ++
      domain_authorizations KEYSTORE
        [mk_KeyCharacteristics SOFTWARE [mk_param KM_TAG_DIGEST (integer 4)]].
Proof.
  refine (@classification_of_concatenation [] _ _ true _ _ _ _);
    reflexivity.
Defined.
